(** * Headline extraction and prefecture classification (main.py)

    A shallow embedding of the extraction-and-classification pipeline of
    [main.py]: the JSON-LD headline extractor, the daily token budget
    guard, the parser of the model's numbered reply, and the page loop.

    Python values are modelled as the interpreter has them: a [str] is a
    sequence of Unicode code points, an [int] is unbounded, a list is
    updated by index with Python's negative-index and out-of-range rules,
    an exception unwinds until an [except] clause of a matching class
    catches it, and [st.session_state] is threaded as explicit state. *)

From Stdlib Require Import ZArith List Ascii String Lia Bool.
From stdpp Require Import base option list gmap.

Local Open Scope Z_scope.

(** ** Python strings *)

(** A Python [str]: its code points, in order. *)
Abbreviation pystr := (list Z).

Module Str.

(** Code points of a source literal stored in this file as UTF-8 bytes:
    the decoder keeps the code point under construction and the number of
    continuation bytes still expected. *)
Fixpoint utf8_go (bs : list Z) (pending need : Z) : pystr :=
  match bs with
  | [] => []
  | b :: bs' =>
      if b <? 128 then b :: utf8_go bs' 0 0
      else if b <? 192 then
        let cp := Z.lor (Z.shiftl pending 6) (Z.land b 63) in
        if need <=? 1 then cp :: utf8_go bs' 0 0 else utf8_go bs' cp (need - 1)
      else if b <? 224 then utf8_go bs' (Z.land b 31) 1
      else if b <? 240 then utf8_go bs' (Z.land b 15) 2
      else utf8_go bs' (Z.land b 7) 3
  end.

Definition bytes_of (s : string) : list Z :=
  map (fun a => Z.of_N (N_of_ascii a)) (list_ascii_of_string s).

Definition lit (s : string) : pystr := utf8_go (bytes_of s) 0 0.

(** [str.isspace] on one code point (CPython's [_PyUnicode_IsWhitespace]):
    the characters [str.strip()] removes. *)
Definition isspace (c : Z) : bool :=
  ((9 <=? c) && (c <=? 13)) || ((28 <=? c) && (c <=? 32))
  || (c =? 133) || (c =? 160) || (c =? 5760)
  || ((8192 <=? c) && (c <=? 8202))
  || (c =? 8232) || (c =? 8233) || (c =? 8239) || (c =? 8287) || (c =? 12288).

Fixpoint lstrip (s : pystr) : pystr :=
  match s with
  | [] => []
  | c :: s' => if isspace c then lstrip s' else s
  end.

Definition rstrip (s : pystr) : pystr := rev (lstrip (rev s)).

(** [s.strip()] *)
Definition strip (s : pystr) : pystr := rstrip (lstrip s).

(** [sep in s] for a one-character [sep]. *)
Definition contains (sep : Z) (s : pystr) : bool := existsb (Z.eqb sep) s.

(** [s.split(sep)] for a one-character [sep]: never the empty list. *)
Fixpoint split (sep : Z) (s : pystr) : list pystr :=
  match s with
  | [] => [[]]
  | c :: s' =>
      if c =? sep then [] :: split sep s'
      else match split sep s' with
           | [] => [[c]]
           | w :: ws => (c :: w) :: ws
           end
  end.

(** [s.split(sep, 1)]: one part when [sep] does not occur, else the text
    before the first [sep] and the whole text after it. *)
Fixpoint split1 (sep : Z) (s : pystr) : list pystr :=
  match s with
  | [] => [[]]
  | c :: s' =>
      if c =? sep then [[]; s']
      else match split1 sep s' with
           | w :: ws => (c :: w) :: ws
           | [] => [[c]]
           end
  end.

(** The text before the first [sep], and the text after it. *)
Fixpoint before (sep : Z) (s : pystr) : pystr :=
  match s with
  | [] => []
  | c :: s' => if c =? sep then [] else c :: before sep s'
  end.

Fixpoint after (sep : Z) (s : pystr) : pystr :=
  match s with
  | [] => []
  | c :: s' => if c =? sep then s' else after sep s'
  end.

(** [sep.join(parts)] *)
Fixpoint join (sep : pystr) (parts : list pystr) : pystr :=
  match parts with
  | [] => []
  | [p] => p
  | p :: ps => p ++ sep ++ join sep ps
  end.

Fixpoint is_prefix (p s : pystr) : bool :=
  match p, s with
  | [], _ => true
  | _ :: _, [] => false
  | a :: p', b :: s' => (a =? b) && is_prefix p' s'
  end.

(** [sub in s] for strings. *)
Fixpoint is_substring (sub s : pystr) : bool :=
  is_prefix sub s ||
  match s with
  | [] => false
  | _ :: s' => is_substring sub s'
  end.

(** Decimal digits of a positive number, most significant first; the
    fuel is the number of binary digits, which bounds the decimal ones. *)
Fixpoint digits_go (fuel : nat) (n : Z) (acc : pystr) : pystr :=
  match fuel with
  | O => acc
  | S fuel' =>
      let acc' := (48 + n mod 10) :: acc in
      if n <? 10 then acc' else digits_go fuel' (n / 10) acc'
  end.

(** [str(n)] for an [int]. *)
Definition of_int (n : Z) : pystr :=
  if n <? 0 then 45 :: digits_go (S (Z.to_nat (Z.log2 (- n)))) (- n) []
  else digits_go (S (Z.to_nat (Z.log2 n))) n [].

(** The number a string of decimal digits denotes. *)
Definition decimal_value (s : pystr) : Z :=
  fold_left (fun a c => 10 * a + (c - 48)) s 0.

End Str.

(** ** Exceptions *)

(** The exception classes the pipeline can meet. [JSONDecodeError] is a
    subclass of [ValueError]; [StopException] is what [st.stop()] raises
    to end the script run; [ExternalError] stands for every other class
    a library raises (the HTTP client, the model client, the HTML
    parser, the JSON decoder at its recursion limit). *)
Inductive exn :=
| ValueError | JSONDecodeError | TypeError | KeyError | IndexError
| AttributeError | StopException | ExternalError.

#[global] Instance exn_eq_dec : EqDecision exn.
Proof. solve_decision. Defined.

(** [isinstance(e, cls)] *)
Definition isinstance (e cls : exn) : bool :=
  bool_decide (e = cls) ||
  match e, cls with
  | JSONDecodeError, ValueError => true
  | _, _ => false
  end.

(** The result of evaluating an expression that may raise. *)
Inductive res (A : Type) :=
| Ok (a : A)
| Raise (e : exn).
Arguments Ok {A} a.
Arguments Raise {A} e.

#[global] Instance res_ret : MRet res := fun A a => Ok a.
#[global] Instance res_bind : MBind res := fun A B f m =>
  match m with
  | Ok a => f a
  | Raise e => Raise e
  end.

(** [try: body  except classes: handler] *)
Definition try_except {A} (body : res A) (classes : list exn) (handler : res A) : res A :=
  match body with
  | Ok a => Ok a
  | Raise e => if existsb (isinstance e) classes then handler else Raise e
  end.

(** A [for] loop whose body may raise: the accumulator stands for the
    variables the body updates. *)
Fixpoint for_each {A B} (body : A -> B -> res A) (acc : A) (xs : list B) : res A :=
  match xs with
  | [] => Ok acc
  | x :: xs' => acc' ← body acc x; for_each body acc' xs'
  end.

(** ** Python lists *)

Module PyList.

(** [len(l)] *)
Definition len {A} (l : list A) : Z := Z.of_nat (length l).

(** [l[i]]: a negative index counts from the end; [IndexError] outside
    [-len(l) <= i < len(l)]. *)
Definition getitem {A} (l : list A) (i : Z) : res A :=
  let j := if i <? 0 then len l + i else i in
  if (0 <=? j) && (j <? len l) then
    match l !! Z.to_nat j with
    | Some a => Ok a
    | None => Raise IndexError
    end
  else Raise IndexError.

(** [l[i] = v], with the same index rules. *)
Definition setitem {A} (l : list A) (i : Z) (v : A) : res (list A) :=
  let j := if i <? 0 then len l + i else i in
  if (0 <=? j) && (j <? len l) then Ok (<[Z.to_nat j := v]> l)
  else Raise IndexError.

(** [range(a, b)] *)
Definition range (a b : Z) : list Z :=
  map (fun k => a + Z.of_nat k) (seq 0 (Z.to_nat (b - a))).

End PyList.

(** ** Python values decoded from JSON *)

(** What [json.loads] can return. A [float] is kept as its IEEE 754
    binary64 bit pattern; a [dict] keeps its items in insertion order,
    each key once. *)
#[warnings="-register-all"] Inductive pyval :=
| PyNone
| PyBool (b : bool)
| PyInt (n : Z)
| PyFloat (bits : Z)
| PyStr (s : pystr)
| PyArr (items : list pyval)
| PyDict (items : list (pystr * pyval)).

Module PyVal.

Fixpoint dict_get (key : pystr) (items : list (pystr * pyval)) : option pyval :=
  match items with
  | [] => None
  | (k, v) :: rest => if bool_decide (k = key) then Some v else dict_get key rest
  end.

Definition is_str (key : pystr) (v : pyval) : bool :=
  match v with
  | PyStr s => bool_decide (s = key)
  | _ => false
  end.

(** [key in data] for a [str] key: membership among the keys of a dict,
    among the elements of a list, as a substring of a str; [TypeError]
    on a value that is not a container. *)
Definition contains (key : pystr) (data : pyval) : res bool :=
  match data with
  | PyDict items => Ok (bool_decide (is_Some (dict_get key items)))
  | PyArr items => Ok (existsb (is_str key) items)
  | PyStr s => Ok (Str.is_substring key s)
  | _ => Raise TypeError
  end.

(** [data[key]] for a [str] key: the dict's value, [KeyError] when the
    key is missing, [TypeError] on every other value (lists and strings
    take integer indices only). *)
Definition getitem (data : pyval) (key : pystr) : res pyval :=
  match data with
  | PyDict items =>
      match dict_get key items with
      | Some v => Ok v
      | None => Raise KeyError
      end
  | _ => Raise TypeError
  end.

End PyVal.

(** ** The world outside the script *)

(** What the script does to the outside, in the order it does it;
    [st_progress a b] sets the progress bar to [a / b]. *)
Inductive event :=
| st_error (msg : pystr)
| st_warning (msg : pystr)
| st_write (msg : pystr)
| st_progress (numerator denominator : Z)
| http_get (url : pystr)
| chat_completion (prompt : pystr)
| sleep (seconds : Z).

(** The interpreter's builtins and the libraries the script calls. None
    of them is code of the script, so the development is stated for
    every behaviour they may have.
    - [TODAY]: [str(date.today())], fixed when the script starts;
    - [py_int s]: [int(s)], [None] when it raises [ValueError];
    - [py_format v]: how an f-string renders [v];
    - [json_loads s]: [json.loads(s)], or what it raises:
      [JSONDecodeError] on text that is not JSON, a plain [ValueError]
      on an integer literal longer than the interpreter's limit on
      digits, another class at the recursion limit;
    - [find_all_ld_json html]: the [.string] of each tag returned by
      [BeautifulSoup(html, 'html.parser').find_all('script',
      type='application/ld+json')], in document order ([None] when the
      tag has no single text child), or what the parser raises on
      markup it rejects;
    - [requests_get past url]: [requests.get(url).text], or what it raises;
    - [chat_completions_create past prompt]: the [message.content] of
      each choice of the completion, or what the client raises.
    The last two answer after the events [past]: the same request may
    be answered differently each time. *)
Class Runtime := {
  TODAY : pystr;
  py_int : pystr -> option Z;
  py_format : pyval -> pystr;
  json_loads : pystr -> res pyval;
  find_all_ld_json : pystr -> res (list (option pystr));
  requests_get : list event -> pystr -> res pystr;
  chat_completions_create : list event -> pystr -> res (list (option pystr));
}.

(** [st.session_state.daily_tokens] and the events so far. *)
Record world := World {
  daily_tokens : gmap pystr Z;
  trace : list event;
}.

(** A statement of the script: it may change the world, and it either
    yields a value or raises. *)
Definition M (A : Type) : Type := world -> res A * world.

#[global] Instance M_ret : MRet M := fun A a w => (Ok a, w).
#[global] Instance M_bind : MBind M := fun A B f m w =>
  match m w with
  | (Ok a, w') => f a w'
  | (Raise e, w') => (Raise e, w')
  end.

Module Script.

Definition raise {A} (e : exn) : M A := fun w => (Raise e, w).

Definition lift {A} (r : res A) : M A := fun w => (r, w).

Definition emit (e : event) : M unit := fun w =>
  (Ok tt, World (daily_tokens w) (trace w ++ [e])).

(** [st.stop()] *)
Definition st_stop {A} : M A := raise StopException.

(** [st.session_state.daily_tokens[key]] *)
Definition tokens_get (key : pystr) : M Z := fun w =>
  match daily_tokens w !! key with
  | Some n => (Ok n, w)
  | None => (Raise KeyError, w)
  end.

(** [st.session_state.daily_tokens[key] = n] *)
Definition tokens_set (key : pystr) (n : Z) : M unit := fun w =>
  (Ok tt, World (<[key := n]> (daily_tokens w)) (trace w)).

(** A [for] loop over statements. *)
Fixpoint for_each {A B} (body : A -> B -> M A) (acc : A) (xs : list B) : M A :=
  match xs with
  | [] => mret acc
  | x :: xs' => acc' ← body acc x; for_each body acc' xs'
  end.

End Script.

(** ** The script *)

Definition DAILY_TOKEN_LIMIT : Z := 15000.

(** The sentinel label. *)
Definition unknown : pystr := Str.lit "不明".

Definition comma : Z := 44.
Definition newline : Z := 10.

Definition budget_message : pystr :=
  Str.lit "本日のAPI利用上限（約0.1ドル）に達しました。" ++
  Str.lit "明日以降に再実行してください。".

Definition prompt_head : pystr := Str.lit
"以下の記事タイトル一覧から、それぞれ該当する都道府県を判断してください。

【ルール】
- 都道府県名のみを回答（例：東京都、大阪府、北海道）
- 東京23区や東京都内の市区は「東京都」
- 政令指定都市は所属する都道府県を回答（例：横浜市→神奈川県、神戸市→兵庫県）
- 判断できない場合は「不明」

【出力形式】
番号と都道府県名のみをカンマ区切りで出力してください。
例: 1,東京都
    2,大阪府
    3,不明

【記事タイトル一覧】
".

Section Pipeline.

Context {RT : Runtime}.

(** Lines 23-27: the entry of today is created at zero when absent. *)
Definition init_daily_tokens (w : world) : world :=
  match daily_tokens w !! TODAY with
  | Some _ => w
  | None => World (<[TODAY := 0]> (daily_tokens w)) (trace w)
  end.

(** [json.loads(script.string)]: [TypeError] when there is no string. *)
Definition loads_script (script : option pystr) : res pyval :=
  match script with
  | None => Raise TypeError
  | Some text => json_loads text
  end.

Definition headline_key : pystr := Str.lit "headline".

(** The body of the loop over the script tags (lines 68-73). *)
Definition scan_script (headlines : list pyval) (script : option pystr) : res (list pyval) :=
  try_except
    (data ← loads_script script;
     present ← PyVal.contains headline_key data;
     if present : bool then
       v ← PyVal.getitem data headline_key;
       Ok (headlines ++ [v])
     else Ok headlines)
    [JSONDecodeError; TypeError]
    (Ok headlines).

Definition extract_headlines_with_beautifulsoup (html_content : pystr) : res (list pyval) :=
  scripts ← find_all_ld_json html_content;
  for_each scan_script [] scripts.

(** The body of the loop over the reply's lines (lines 130-139); [n] is
    [len(headlines)]. *)
Definition parse_line (n : Z) (prefectures : list pystr) (line : pystr) : res (list pystr) :=
  let line := Str.strip line in
  if Str.contains comma line then
    let parts := Str.split1 comma line in
    try_except
      (p0 ← PyList.getitem parts 0;
       i ← match py_int (Str.strip p0) with
           | Some i => Ok i
           | None => Raise ValueError
           end;
       let idx := i - 1 in
       p1 ← PyList.getitem parts 1;
       let pref := Str.strip p1 in
       if (0 <=? idx) && (idx <? n) then PyList.setitem prefectures idx pref
       else Ok prefectures)
      [ValueError]
      (Ok prefectures)
  else Ok prefectures.

(** Lines 127-141: the labels start at the sentinel and the reply's
    lines are applied in order. *)
Definition parse_response (headlines : list pyval) (response_text : pystr) : res (list pystr) :=
  let prefectures := replicate (length headlines) unknown in
  for_each (parse_line (PyList.len headlines)) prefectures
           (Str.split newline (Str.strip response_text)).

(** Line 94: the numbered headlines, one per line. *)
Definition headlines_text (headlines : list pyval) : pystr :=
  Str.join [newline]
    (imap (fun i h => Str.of_int (Z.of_nat i + 1) ++ Str.lit ". " ++ py_format h) headlines).

Definition build_prompt (headlines : list pyval) : pystr :=
  prompt_head ++ headlines_text headlines ++ [newline].

(** [client.chat.completions.create(...)]: the call is made, then the
    client answers or raises. *)
Definition create_completion (prompt : pystr) : M (list (option pystr)) := fun w =>
  (chat_completions_create (trace w) prompt,
   World (daily_tokens w) (trace w ++ [chat_completion prompt])).

Definition extract_prefecture_with_llm (headlines : list pyval) (api_key : pystr) : M (list pystr) :=
  let estimated_tokens := PyList.len headlines * 120 in
  used ← Script.tokens_get TODAY;
  _ ← (if used + estimated_tokens >? DAILY_TOKEN_LIMIT then
         _ ← Script.emit (st_error budget_message);
         Script.st_stop
       else mret tt);
  let prompt := build_prompt headlines in
  choices ← create_completion prompt;
  used' ← Script.tokens_get TODAY;
  _ ← Script.tokens_set TODAY (used' + estimated_tokens);
  content ← Script.lift (PyList.getitem choices 0);
  response_text ← match content with
                  | Some text => mret text
                  | None => Script.raise AttributeError
                  end;
  Script.lift (parse_response headlines response_text).

(** [requests.get(url).text] *)
Definition fetch (url : pystr) : M pystr := fun w =>
  (requests_get (trace w) url, World (daily_tokens w) (trace w ++ [http_get url])).

(** Lines 170-173. *)
Definition page_url (base_url : pystr) (page : Z) : pystr :=
  if page =? 1 then base_url else base_url ++ Str.of_int page.

(** Line 175: the text shown when a page starts. *)
Definition page_banner (page : Z) (url : pystr) : pystr :=
  Str.lit "処理中(" ++ Str.of_int page ++ Str.lit "ページ目)：" ++ url.

(** The body of the page loop (lines 170-186); the accumulator is
    [(all_headlines, all_prefectures)]. *)
Definition page_step (base_url : pystr) (page_count : Z) (api_key : pystr)
    (acc : list pyval * list pystr) (page : Z) : M (list pyval * list pystr) :=
  let url := page_url base_url page in
  _ ← Script.emit (st_write (page_banner page url));
  text ← fetch url;
  headlines ← Script.lift (extract_headlines_with_beautifulsoup text);
  prefectures ← extract_prefecture_with_llm headlines api_key;
  _ ← Script.emit (st_progress page page_count);
  _ ← Script.emit (sleep 3);
  mret (acc.1 ++ headlines, acc.2 ++ prefectures).

(** Lines 164-186. *)
Definition page_loop (base_url : pystr) (page_count : Z) (api_key : pystr)
    : M (list pyval * list pystr) :=
  _ ← Script.emit (st_progress 0 1);
  Script.for_each (page_step base_url page_count api_key) ([], [])
                  (PyList.range 1 (page_count + 1)).

(** The handler of the run button, up to the end of the page loop
    (lines 160-186); rendering the table is left to the UI. *)
Definition on_run (base_url : pystr) (page_count : Z) (api_key : pystr)
    : M (list pyval * list pystr) :=
  _ ← (if bool_decide (base_url = []) then
         _ ← Script.emit (st_warning (Str.lit "URLを入力してください"));
         Script.st_stop
       else mret tt);
  page_loop base_url page_count api_key.

End Pipeline.

(** ** The behaviour as the specification words it *)

Section Described.

Context {RT : Runtime}.

(** The index and the trimmed label a reply line carries: the line is
    trimmed, must contain a comma, is cut at its first comma, and the
    text before it must read as an integer. *)
Definition line_entry (line : pystr) : option (Z * pystr) :=
  let l := Str.strip line in
  if Str.contains comma l then
    i ← py_int (Str.strip (Str.before comma l));
    Some (i, Str.strip (Str.after comma l))
  else None.

(** A line whose index lies in [1..n]. *)
Definition carries (n : nat) (line : pystr) (lbl : pystr) : Prop :=
  exists i, line_entry line = Some (i, lbl) /\ 1 <= i <= Z.of_nat n.

(** One line applied to the labels: overwrite position [i - 1] when the
    line carries an index [1 <= i <= n], else discard the line. *)
Definition apply_line (n : nat) (labels : list pystr) (line : pystr) : list pystr :=
  match line_entry line with
  | Some (i, lbl) =>
      if (1 <=? i) && (i <=? Z.of_nat n) then <[Z.to_nat (i - 1) := lbl]> labels
      else labels
  | None => labels
  end.

Definition reply_lines (response_text : pystr) : list pystr :=
  Str.split newline (Str.strip response_text).

(** All lines applied in order to [n] labels that start unknown. *)
Definition merged_labels (n : nat) (response_text : pystr) : list pystr :=
  foldl (apply_line n) (replicate n unknown) (reply_lines response_text).

(** The headline of a block: its text is valid JSON for an object with
    a "headline" key. *)
Definition block_headline (script : option pystr) : option pyval :=
  text ← script;
  match json_loads text with
  | Ok (PyDict items) => PyVal.dict_get headline_key items
  | _ => None
  end.

(** The exception a block ends the scan with: what [json.loads] raises
    on its text, unless it is a [JSONDecodeError] or a [TypeError]. *)
Definition block_escape (script : option pystr) : option exn :=
  text ← script;
  match json_loads text with
  | Raise e => if existsb (isinstance e) [JSONDecodeError; TypeError] then None else Some e
  | Ok _ => None
  end.


(** Today's usage counter; a date never used counts as zero. *)
Definition usage (key : pystr) (w : world) : Z := default 0 (daily_tokens w !! key).

(** A statement after which no date's counter is lower than before. *)
Definition grows {A} (m : M A) : Prop :=
  forall w key, usage key w <= usage key (m w).2.

(** The URLs requested, in order. *)
Definition fetched (evs : list event) : list pystr :=
  omap (fun e => match e with http_get url => Some url | _ => None end) evs.

(** The prompts sent to the model, in order. *)
Definition prompts (evs : list event) : list pystr :=
  omap (fun e => match e with chat_completion p => Some p | _ => None end) evs.

(** The URLs of pages [1..n]. *)
Definition page_urls (base_url : pystr) (n : nat) : list pystr :=
  map (fun k => page_url base_url (Z.of_nat k)) (seq 1 n).

End Described.

(** Modelled from the spec: the canonical names of the 47 prefectures,
    which the script does not list (its prompt names three of them as
    examples of the expected answer). *)
Definition prefecture_names : list pystr := map Str.lit
  [ "北海道"; "青森県"; "岩手県"; "宮城県"; "秋田県"; "山形県"; "福島県";
    "茨城県"; "栃木県"; "群馬県"; "埼玉県"; "千葉県"; "東京都"; "神奈川県";
    "新潟県"; "富山県"; "石川県"; "福井県"; "山梨県"; "長野県"; "岐阜県";
    "静岡県"; "愛知県"; "三重県"; "滋賀県"; "京都府"; "大阪府"; "兵庫県";
    "奈良県"; "和歌山県"; "鳥取県"; "島根県"; "岡山県"; "広島県"; "山口県";
    "徳島県"; "香川県"; "愛媛県"; "高知県"; "福岡県"; "佐賀県"; "長崎県";
    "熊本県"; "大分県"; "宮崎県"; "鹿児島県"; "沖縄県" ]%string.

Definition is_label (s : pystr) : bool :=
  bool_decide (s = unknown) || bool_decide (s ∈ prefecture_names).

(** ** A runtime with canned collaborators

    Used to run the script on concrete inputs. Every URL answers with a
    page of [blocks] elements
    [<script type="application/ld+json">{"headline": "A"}</script>], and
    the model always answers [reply]. The collaborators are cut to these
    pages: [int] reads ASCII decimal digits (optional sign, single
    underscores between digits, blanks around), the tag scanner reads
    documents made of such script elements, and the decoder knows the
    canned block and integers. *)
Module Canned.

Fixpoint int_digits (s : pystr) (acc : Z) (after_digit : bool) : option Z :=
  match s with
  | [] => if after_digit then Some acc else None
  | c :: s' =>
      if (48 <=? c) && (c <=? 57) then int_digits s' (10 * acc + (c - 48)) true
      else if (c =? 95) && after_digit then int_digits s' acc false
      else None
  end.

Definition int (s : pystr) : option Z :=
  match Str.strip s with
  | 43 :: digits => int_digits digits 0 false
  | 45 :: digits => Z.opp <$> int_digits digits 0 false
  | digits => int_digits digits 0 false
  end.

Definition quoted (s : pystr) : pystr := [34] ++ s ++ [34].

(** The text [{"headline": "A"}]. *)
Definition block : pystr :=
  [123] ++ quoted (Str.lit "headline") ++ Str.lit ": " ++ quoted (Str.lit "A") ++ [125].

Definition open_tag : pystr :=
  Str.lit "<script type=" ++ quoted (Str.lit "application/ld+json") ++ Str.lit ">".

Definition close_tag : pystr := Str.lit "</script>".

Definition element : pystr := open_tag ++ block ++ close_tag.

(** The body of every canned page. *)
Definition page (blocks : nat) : pystr := concat (replicate blocks element).

(** The text before the first occurrence of [sub] and the text after it. *)
Fixpoint cut (sub s : pystr) : option (pystr * pystr) :=
  if Str.is_prefix sub s then Some ([], drop (length sub) s)
  else match s with
       | [] => None
       | c :: s' =>
           match cut sub s' with
           | Some (pre, post) => Some (c :: pre, post)
           | None => None
           end
       end.

(** The text of each script element, in document order. *)
Fixpoint scripts (fuel : nat) (s : pystr) : list (option pystr) :=
  match fuel with
  | O => []
  | S fuel' =>
      match cut open_tag s with
      | None => []
      | Some (_, inside) =>
          match cut close_tag inside with
          | None => []
          | Some (body, rest) =>
              (if bool_decide (body = []) then None else Some body) :: scripts fuel' rest
          end
      end
  end.

Definition format (v : pyval) : pystr :=
  match v with
  | PyStr s => s
  | PyInt n => Str.of_int n
  | PyNone => Str.lit "None"
  | PyBool true => Str.lit "True"
  | PyBool false => Str.lit "False"
  | _ => Str.lit "?"
  end.

(** A JSON integer: decimal digits, no leading zero. *)
Definition is_integer (s : pystr) : bool :=
  match s with
  | [] => false
  | [_] => forallb (fun c => (48 <=? c) && (c <=? 57)) s
  | c :: _ => (49 <=? c) && forallb (fun c => (48 <=? c) && (c <=? 57)) s
  end.

(** [json.loads] on the texts of the canned pages: the canned block
    gives its object; an integer gives its value, or a plain
    [ValueError] when it has more than 4300 digits, the interpreter's
    limit on converting a string to an [int]; any other text is taken
    as not JSON. *)
Definition loads (s : pystr) : res pyval :=
  if bool_decide (s = block) then Ok (PyDict [(Str.lit "headline", PyStr (Str.lit "A"))])
  else if is_integer s then
    if (4300 <? Z.of_nat (length s)) then Raise ValueError
    else Ok (PyInt (Str.decimal_value s))
  else Raise JSONDecodeError.

#[local] Instance runtime (blocks : nat) (reply : pystr) : Runtime := {|
  TODAY := Str.lit "2024-01-01";
  py_int := int;
  py_format := format;
  json_loads := loads;
  find_all_ld_json := fun html => Ok (scripts (length html) html);
  requests_get := fun _ _ => Ok (page blocks);
  chat_completions_create := fun _ _ => Ok [Some reply];
|}.

(** The same collaborators with a model whose completion holds no
    choice. *)
Definition silent (blocks : nat) : Runtime := {|
  TODAY := Str.lit "2024-01-01";
  py_int := int;
  py_format := format;
  json_loads := loads;
  find_all_ld_json := fun html => Ok (scripts (length html) html);
  requests_get := fun _ _ => Ok (page blocks);
  chat_completions_create := fun _ _ => Ok [];
|}.

(** A session on its first run of the day. *)
Definition fresh : world := World {[ Str.lit "2024-01-01" := 0 ]} [].

End Canned.

Definition ABC : list pyval := [PyStr (Str.lit "A"); PyStr (Str.lit "B"); PyStr (Str.lit "C")].

(** ** The rest of the run *)

Section Rest.

Context {RT : Runtime}.

Definition missing_key_message : pystr :=
  Str.lit "環境変数 OPENAI_API_KEY が設定されていません".

(** Lines 150-186: the check of the API key, the run button and the
    run. [api_key] is what [os.getenv] returned and [button] what
    [st.button] did. *)
Definition main_processing (api_key : option pystr) (button : bool)
    (base_url : pystr) (page_count : Z) : M (option (list pyval * list pystr)) :=
  key ← match api_key with
        | Some key =>
            if bool_decide (key = []) then
              _ ← Script.emit (st_error missing_key_message);
              Script.st_stop
            else mret key
        | None =>
            _ ← Script.emit (st_error missing_key_message);
            Script.st_stop
        end;
  if button then
    result ← on_run base_url page_count key;
    mret (Some result)
  else mret None.

(** Line 206: [DAILY_TOKEN_LIMIT - st.session_state.daily_tokens[TODAY]]. *)
Definition remaining_tokens : M Z :=
  used ← Script.tokens_get TODAY;
  mret (DAILY_TOKEN_LIMIT - used).

(** What a page that runs to its end does to the outside. *)
Definition page_events (base_url : pystr) (page_count page : Z) (prompt : pystr)
    : list event :=
  [ st_write (page_banner page (page_url base_url page));
    http_get (page_url base_url page);
    chat_completion prompt;
    st_progress page page_count;
    sleep 3 ].

(** A statement that always leaves the world related to the one it
    started from. *)
Definition keeps (R : world -> world -> Prop) {A} (m : M A) : Prop :=
  forall w, R w (m w).2.

(** Today's counter is within the daily limit after, if it was before. *)
Definition within_budget (w w' : world) : Prop :=
  usage TODAY w <= DAILY_TOKEN_LIMIT -> usage TODAY w' <= DAILY_TOKEN_LIMIT.

(** The counters of the other dates are unchanged. *)
Definition other_days_kept (w w' : world) : Prop :=
  forall key, key <> TODAY -> daily_tokens w' !! key = daily_tokens w !! key.

(** Every date that had a counter still has one. *)
Definition entries_kept (w w' : world) : Prop :=
  forall key, is_Some (daily_tokens w !! key) -> is_Some (daily_tokens w' !! key).

(** The pauses taken, in seconds, in order. *)
Definition sleeps (evs : list event) : list Z :=
  omap (fun e => match e with sleep seconds => Some seconds | _ => None end) evs.

(** No request and no prompt has been added. *)
Definition nothing_sent (w w' : world) : Prop :=
  fetched (trace w') = fetched (trace w) /\ prompts (trace w') = prompts (trace w).

(** The line of a reply that answers headline number [k] with [label],
    and the reply that answers every headline in turn. *)
Definition answer_line (k : Z) (label : pystr) : pystr :=
  Str.of_int k ++ comma :: label.

Definition answer_lines (labels : list pystr) : list pystr :=
  imap (fun i label => answer_line (Z.of_nat i + 1) label) labels.

Definition full_reply (labels : list pystr) : pystr :=
  Str.join [newline] (answer_lines labels).

(** The numbered lines of the prompt (line 94). *)
Definition numbered_lines (headlines : list pyval) : list pystr :=
  imap (fun i h => Str.of_int (Z.of_nat i + 1) ++ Str.lit ". " ++ py_format h) headlines.

End Rest.

(** * Properties *)

Example partial_reply_merge :
  parse_response (RT := Canned.runtime 0 []) ABC (Str.lit "1,Tokyo
3,Osaka")
  = Ok [Str.lit "Tokyo"; unknown; Str.lit "Osaka"].
Proof. vm_compute. reflexivity. Qed.

Example out_of_range_and_malformed :
  parse_response (RT := Canned.runtime 0 []) ABC (Str.lit "5,Tokyo
foo,bar
2,Osaka")
  = Ok [unknown; Str.lit "Osaka"; unknown].
Proof. vm_compute. reflexivity. Qed.

Example extract_canned_page :
  extract_headlines_with_beautifulsoup (RT := Canned.runtime 2 []) (Canned.page 2)
  = Ok [PyStr (Str.lit "A"); PyStr (Str.lit "A")].
Proof. vm_compute. reflexivity. Qed.

Example classify_one_page :
  let R := Canned.runtime 3 (Str.lit " 2 , 大阪府 
0,x
-1,y
1,東京都,extra") in
  extract_prefecture_with_llm ABC [] Canned.fresh
  = (Ok [Str.lit "東京都,extra"; Str.lit "大阪府"; unknown],
     World {[ Str.lit "2024-01-01" := 360 ]} [chat_completion (build_prompt ABC)]).
Proof. vm_compute. reflexivity. Qed.

(** ** Strings *)

Lemma split1_cut sep s :
  Str.contains sep s = true ->
  Str.split1 sep s = [Str.before sep s; Str.after sep s].
Proof.
  induction s as [|c s IH]; simpl; [discriminate|].
  rewrite (Z.eqb_sym sep c).
  destruct (c =? sep); simpl; [reflexivity|].
  intros Hc. rewrite (IH Hc). reflexivity.
Qed.

Lemma before_no_sep sep s : Str.contains sep (Str.before sep s) = false.
Proof.
  induction s as [|c s IH]; simpl; [reflexivity|].
  destruct (c =? sep) eqn:E; simpl; [reflexivity|].
  rewrite (Z.eqb_sym sep c), E. exact IH.
Qed.

Lemma cut_join sep s :
  Str.contains sep s = true ->
  s = Str.before sep s ++ sep :: Str.after sep s.
Proof.
  induction s as [|c s IH]; simpl; [discriminate|].
  rewrite (Z.eqb_sym sep c).
  destruct (c =? sep) eqn:E; simpl.
  - intros _. apply Z.eqb_eq in E. by subst.
  - intros Hc. by rewrite <- (IH Hc).
Qed.

Lemma digits_go_decimal fuel n acc :
  0 <= n < 2 ^ Z.of_nat fuel ->
  exists ds, Str.digits_go fuel n acc = ds ++ acc /\
             Str.decimal_value ds = n /\
             Forall (fun c => 48 <= c <= 57) ds.
Proof.
  revert n acc. induction fuel as [|fuel IH]; intros n acc Hn.
  - exists []. simpl in *. repeat split; [|constructor].
    unfold Str.decimal_value. simpl. lia.
  - simpl. pose proof (Z.mod_pos_bound n 10 ltac:(lia)) as Hmod.
    destruct (n <? 10) eqn:E.
    + exists [48 + n mod 10]. repeat split.
      * unfold Str.decimal_value. simpl. rewrite Z.mod_small by lia. lia.
      * repeat constructor; lia.
    + assert (Hpow : 0 < 2 ^ Z.of_nat fuel) by (apply Z.pow_pos_nonneg; lia).
      assert (Hq : 0 <= n / 10 < 2 ^ Z.of_nat fuel).
      { split; [apply Z.div_pos; lia|].
        apply Z.div_lt_upper_bound; [lia|].
        rewrite Nat2Z.inj_succ, Z.pow_succ_r in Hn by lia. lia. }
      destruct (IH (n / 10) ((48 + n mod 10) :: acc) Hq) as (ds & Hds & Hval & Hdig).
      exists (ds ++ [48 + n mod 10]). repeat split.
      * rewrite Hds. by rewrite <- app_assoc.
      * unfold Str.decimal_value in *. rewrite fold_left_app, Hval. simpl.
        pose proof (Z.div_mod n 10 ltac:(lia)). lia.
      * apply Forall_app. split; [done|]. repeat constructor; lia.
Qed.

(** [str(n)] writes a number that is not negative in decimal digits. *)
Lemma of_int_decimal n :
  0 <= n ->
  Str.decimal_value (Str.of_int n) = n /\ Forall (fun c => 48 <= c <= 57) (Str.of_int n).
Proof.
  intros Hn. unfold Str.of_int. destruct (n <? 0) eqn:E; [lia|].
  destruct (digits_go_decimal (S (Z.to_nat (Z.log2 n))) n []) as (ds & Hds & Hval & Hdig).
  - pose proof (Z.log2_nonneg n) as Hl.
    rewrite Nat2Z.inj_succ, Z2Nat.id by lia.
    destruct (Z.eq_dec n 0) as [->|Hne]; [simpl; lia|].
    pose proof (Z.log2_spec n ltac:(lia)). lia.
  - rewrite Hds, app_nil_r. by split.
Qed.

(** ** The reply parser *)

Section ParseFacts.

Context {RT : Runtime}.

Lemma parse_line_entry n labels line :
  parse_line n labels line =
  match line_entry line with
  | Some (i, lbl) =>
      if (0 <=? i - 1) && (i - 1 <? n) then PyList.setitem labels (i - 1) lbl
      else Ok labels
  | None => Ok labels
  end.
Proof.
  unfold parse_line, line_entry.
  destruct (Str.contains comma (Str.strip line)) eqn:Hc; [|reflexivity].
  rewrite (split1_cut _ _ Hc).
  unfold PyList.getitem, mbind, res_bind; simpl.
  destruct (py_int (Str.strip (Str.before comma (Str.strip line)))) as [i|]; simpl; [|reflexivity].
  destruct ((0 <=? i - 1) && (i - 1 <? n)); [|reflexivity].
  destruct (PyList.setitem labels (i - 1) _) as [l|e] eqn:Hs; simpl; [reflexivity|].
  unfold PyList.setitem in Hs.
  case_match; [discriminate|]. by injection Hs as <-.
Qed.

Lemma setitem_in_range {A} (l : list A) (i : Z) (v : A) :
  0 <= i < PyList.len l ->
  PyList.setitem l i v = Ok (<[Z.to_nat i := v]> l).
Proof.
  intros Hi. unfold PyList.setitem.
  destruct (i <? 0) eqn:E; [lia|].
  destruct (0 <=? i) eqn:E1; [|lia].
  destruct (i <? PyList.len l) eqn:E2; [|lia]. reflexivity.
Qed.

Lemma parse_line_apply n labels line :
  length labels = n ->
  parse_line (Z.of_nat n) labels line = Ok (apply_line n labels line).
Proof.
  intros Hn. rewrite parse_line_entry. unfold apply_line.
  destruct (line_entry line) as [[i lbl]|]; [|reflexivity].
  destruct ((0 <=? i - 1) && (i - 1 <? Z.of_nat n)) eqn:E.
  - rewrite setitem_in_range by (unfold PyList.len; lia).
    destruct ((1 <=? i) && (i <=? Z.of_nat n)) eqn:E'; [reflexivity|lia].
  - destruct ((1 <=? i) && (i <=? Z.of_nat n)) eqn:E'; [lia|reflexivity].
Qed.

Lemma apply_line_length n labels line :
  length (apply_line n labels line) = length labels.
Proof.
  unfold apply_line. repeat case_match; by rewrite ?length_insert.
Qed.

Lemma foldl_apply_length n lines labels :
  length (foldl (apply_line n) labels lines) = length labels.
Proof.
  revert labels. induction lines as [|l lines IH]; intros labels; simpl; [reflexivity|].
  by rewrite IH, apply_line_length.
Qed.

Lemma for_each_parse n lines labels :
  length labels = n ->
  for_each (parse_line (Z.of_nat n)) labels lines = Ok (foldl (apply_line n) labels lines).
Proof.
  revert labels. induction lines as [|l lines IH]; intros labels Hn; simpl; [reflexivity|].
  rewrite (parse_line_apply _ _ _ Hn). unfold mbind, res_bind.
  apply IH. by rewrite apply_line_length.
Qed.

Lemma parse_response_merged headlines response_text :
  parse_response headlines response_text
  = Ok (merged_labels (length headlines) response_text).
Proof.
  unfold parse_response, merged_labels, reply_lines, PyList.len.
  apply for_each_parse. apply length_replicate.
Qed.

Lemma merged_labels_length n response_text :
  length (merged_labels n response_text) = n.
Proof.
  unfold merged_labels. by rewrite foldl_apply_length, length_replicate.
Qed.

Lemma apply_line_miss n p labels line :
  (forall lbl, line_entry line <> Some (Z.of_nat p + 1, lbl)) ->
  apply_line n labels line !! p = labels !! p.
Proof.
  intros Hmiss. unfold apply_line.
  destruct (line_entry line) as [[i lbl]|] eqn:E; [|reflexivity].
  destruct ((1 <=? i) && (i <=? Z.of_nat n)) eqn:Hr; [|reflexivity].
  apply list_lookup_insert_ne. intros <-.
  apply (Hmiss lbl). f_equal. f_equal. lia.
Qed.

Lemma apply_line_hit n p labels line lbl :
  line_entry line = Some (Z.of_nat p + 1, lbl) ->
  (p < n)%nat -> length labels = n ->
  apply_line n labels line !! p = Some lbl.
Proof.
  intros E Hp Hn. unfold apply_line. rewrite E.
  destruct ((1 <=? Z.of_nat p + 1) && (Z.of_nat p + 1 <=? Z.of_nat n)) eqn:Hr; [|lia].
  replace (Z.to_nat (Z.of_nat p + 1 - 1)) with p by lia.
  apply list_lookup_insert_eq. lia.
Qed.

Lemma foldl_apply_miss n p lines labels :
  (forall line lbl, line ∈ lines -> line_entry line <> Some (Z.of_nat p + 1, lbl)) ->
  foldl (apply_line n) labels lines !! p = labels !! p.
Proof.
  revert labels. induction lines as [|l lines IH]; intros labels Hmiss; simpl; [reflexivity|].
  rewrite IH.
  - apply apply_line_miss. intros lbl. apply Hmiss. by left.
  - intros line lbl Hin. apply Hmiss. by right.
Qed.

Lemma foldl_apply_last n p pre line post labels lbl :
  length labels = n -> (p < n)%nat ->
  line_entry line = Some (Z.of_nat p + 1, lbl) ->
  (forall later lbl', later ∈ post -> line_entry later <> Some (Z.of_nat p + 1, lbl')) ->
  foldl (apply_line n) labels (pre ++ line :: post) !! p = Some lbl.
Proof.
  intros Hn Hp E Hpost. rewrite foldl_app. simpl.
  rewrite (foldl_apply_miss _ _ _ _ Hpost).
  apply apply_line_hit; [done|done|]. by rewrite foldl_apply_length.
Qed.

End ParseFacts.

(** ** The extractor *)

Section ExtractFacts.

Context {RT : Runtime}.

(** One turn of the scan: the block's exception when it escapes line
    72, else the headlines with the block's headline added. *)
Lemma scan_script_block headlines script :
  scan_script headlines script
  = match block_escape script with
    | Some e => Raise e
    | None => Ok (headlines ++ option_list (block_headline script))
    end.
Proof.
  unfold scan_script, loads_script, block_headline, block_escape.
  destruct script as [text|]; simpl; [|by rewrite app_nil_r].
  destruct (json_loads text) as [data|e]; simpl.
  - destruct data as [| | | | s|items|items]; simpl; try by rewrite app_nil_r.
    + destruct (Str.is_substring headline_key s); simpl; by rewrite app_nil_r.
    + destruct (existsb (PyVal.is_str headline_key) items); simpl; by rewrite app_nil_r.
    + destruct (PyVal.dict_get headline_key items) as [v|] eqn:E; simpl.
      * reflexivity.
      * by rewrite app_nil_r.
  - destruct (isinstance e JSONDecodeError || (isinstance e TypeError || false));
      [by rewrite app_nil_r|reflexivity].
Qed.


Lemma for_each_scan_escape before script after e headlines :
  (forall x, x ∈ before -> block_escape x = None) ->
  block_escape script = Some e ->
  for_each scan_script headlines (before ++ script :: after) = Raise e.
Proof.
  revert headlines. induction before as [|s before IH]; intros headlines Hcaught He; simpl.
  - by rewrite scan_script_block, He.
  - rewrite scan_script_block, (Hcaught s) by by left.
    unfold mbind, res_bind. apply IH; [|done]. intros x Hx. apply Hcaught. by right.
Qed.

End ExtractFacts.

(** ** The classifier, run from any world *)

Section ClassifierFacts.

Context {RT : Runtime}.

(** Every way a call of the classifier can go. *)
Lemma classifier_run headlines api_key w :
  extract_prefecture_with_llm headlines api_key w =
  match daily_tokens w !! TODAY with
  | None => (Raise KeyError, w)
  | Some used =>
      let estimated := PyList.len headlines * 120 in
      if used + estimated >? DAILY_TOKEN_LIMIT then
        (Raise StopException, World (daily_tokens w) (trace w ++ [st_error budget_message]))
      else
        let sent := trace w ++ [chat_completion (build_prompt headlines)] in
        match chat_completions_create (trace w) (build_prompt headlines) with
        | Raise e => (Raise e, World (daily_tokens w) sent)
        | Ok choices =>
            let w' := World (<[TODAY := used + estimated]> (daily_tokens w)) sent in
            match choices with
            | [] => (Raise IndexError, w')
            | None :: _ => (Raise AttributeError, w')
            | Some text :: _ => (Ok (merged_labels (length headlines) text), w')
            end
        end
  end.
Proof.
  unfold extract_prefecture_with_llm, mbind, M_bind, Script.tokens_get.
  destruct (daily_tokens w !! TODAY) as [used|] eqn:Hu; [|reflexivity].
  destruct (used + PyList.len headlines * 120 >? DAILY_TOKEN_LIMIT); simpl; [reflexivity|].
  unfold create_completion.
  destruct (chat_completions_create (trace w) (build_prompt headlines)) as [choices|e];
    simpl; [|reflexivity].
  rewrite Hu. simpl.
  destruct choices as [|[text|] rest]; try reflexivity.
  unfold Script.lift, PyList.getitem. simpl.
  by rewrite parse_response_merged.
Qed.

End ClassifierFacts.

(** ** The usage counter only grows *)

Section UsageFacts.

Context {RT : Runtime}.

Lemma grows_ret {A} (a : A) : grows (mret a).
Proof. intros w key. simpl. lia. Qed.

Lemma grows_bind {A B} (m : M A) (f : A -> M B) :
  grows m -> (forall a, grows (f a)) -> grows (m ≫= f).
Proof.
  intros Hm Hf w key. unfold mbind, M_bind.
  specialize (Hm w key). destruct (m w) as [[a|e] w1]; simpl in *; [|done].
  specialize (Hf a w1 key). lia.
Qed.

Lemma grows_raise {A} e : grows (@Script.raise A e).
Proof. intros w key. simpl. lia. Qed.

Lemma grows_lift {A} (r : res A) : grows (Script.lift r).
Proof. intros w key. simpl. lia. Qed.

Lemma grows_emit e : grows (Script.emit e).
Proof. intros w key. unfold usage. simpl. lia. Qed.

Lemma grows_fetch url : grows (fetch url).
Proof. intros w key. unfold usage. simpl. lia. Qed.

Lemma usage_insert key key' n m evs evs' :
  default 0 (m !! key') <= n ->
  usage key (World m evs) <= usage key (World (<[key' := n]> m) evs').
Proof.
  intros Hn. unfold usage. simpl.
  destruct (decide (key' = key)) as [->|Hne].
  - by rewrite lookup_insert_eq.
  - rewrite lookup_insert_ne by done. lia.
Qed.

Lemma grows_classifier headlines api_key :
  grows (extract_prefecture_with_llm headlines api_key).
Proof.
  intros [m evs] key. rewrite classifier_run. simpl.
  destruct (m !! TODAY) as [used|] eqn:Hu; simpl; [|lia].
  destruct (used + PyList.len headlines * 120 >? DAILY_TOKEN_LIMIT); simpl.
  { unfold usage. simpl. lia. }
  assert (Hgrow : forall evs', usage key (World m evs) <=
            usage key (World (<[TODAY := used + PyList.len headlines * 120]> m) evs')).
  { intros evs'. apply usage_insert. rewrite Hu. simpl. unfold PyList.len. lia. }
  destruct (chat_completions_create evs (build_prompt headlines)) as [[|[text|] rest]|e];
    simpl; try apply Hgrow.
  unfold usage. simpl. lia.
Qed.

Lemma grows_for_each {A B} (body : A -> B -> M A) xs :
  (forall acc x, grows (body acc x)) ->
  forall acc, grows (Script.for_each body acc xs).
Proof.
  intros Hbody. induction xs as [|x xs IH]; intros acc; simpl.
  - apply grows_ret.
  - apply grows_bind; [apply Hbody|]. intros acc'. apply IH.
Qed.

Lemma grows_page_step base_url page_count api_key acc page :
  grows (page_step base_url page_count api_key acc page).
Proof.
  unfold page_step.
  repeat first
    [ apply grows_emit | apply grows_fetch | apply grows_lift
    | apply grows_classifier | apply grows_ret
    | apply grows_bind; [|intros ?] ].
Qed.

Lemma grows_page_loop base_url page_count api_key :
  grows (page_loop base_url page_count api_key).
Proof.
  apply grows_bind; [apply grows_emit|]. intros _.
  apply grows_for_each. intros acc page. apply grows_page_step.
Qed.

Lemma grows_on_run base_url page_count api_key :
  grows (on_run base_url page_count api_key).
Proof.
  unfold on_run. apply grows_bind; [|intros ?; apply grows_page_loop].
  case_bool_decide; [|apply grows_ret].
  apply grows_bind; [apply grows_emit|intros ?; apply grows_raise].
Qed.

Lemma init_grows w key : usage key w <= usage key (init_daily_tokens w).
Proof.
  destruct w as [m evs]. unfold init_daily_tokens. simpl.
  destruct (m !! TODAY) eqn:E; [lia|].
  apply usage_insert. rewrite E. simpl. lia.
Qed.

End UsageFacts.

(** ** The page loop *)

Section LoopFacts.

Context {RT : Runtime}.

Lemma fetched_app evs evs' : fetched (evs ++ evs') = fetched evs ++ fetched evs'.
Proof. apply omap_app. Qed.

Lemma classifier_fetched headlines api_key w :
  fetched (trace (extract_prefecture_with_llm headlines api_key w).2) = fetched (trace w).
Proof.
  rewrite classifier_run.
  destruct (daily_tokens w !! TODAY) as [used|]; simpl; [|reflexivity].
  destruct (used + PyList.len headlines * 120 >? DAILY_TOKEN_LIMIT); simpl.
  { rewrite fetched_app. simpl. by rewrite app_nil_r. }
  destruct (chat_completions_create (trace w) (build_prompt headlines)) as [[|[text|] rest]|e];
    simpl; rewrite fetched_app; simpl; by rewrite app_nil_r.
Qed.

(** One turn of the loop requests exactly the page's URL, however the
    turn ends. *)
Lemma page_step_fetched base_url page_count api_key acc page w :
  fetched (trace (page_step base_url page_count api_key acc page w).2)
  = fetched (trace w) ++ [page_url base_url page].
Proof.
  unfold page_step, mbind, M_bind, Script.emit, fetch. simpl.
  set (w1 := World _ _).
  assert (Hw1 : fetched (trace w1) = fetched (trace w) ++ [page_url base_url page]).
  { unfold w1. simpl. rewrite !fetched_app. simpl. by rewrite app_nil_r. }
  destruct (requests_get _ _) as [text|e]; simpl; [|exact Hw1].
  unfold Script.lift.
  destruct (extract_headlines_with_beautifulsoup text) as [headlines|e]; simpl; [|exact Hw1].
  pose proof (classifier_fetched headlines api_key w1) as Hc.
  destruct (extract_prefecture_with_llm headlines api_key w1) as [[prefs|e] w2];
    simpl in *; [|by rewrite Hc].
  rewrite !fetched_app. simpl. by rewrite !app_nil_r, Hc.
Qed.

Lemma for_each_fetched base_url page_count api_key pages acc w :
  exists k : nat,
    (k <= length pages)%nat /\
    fetched (trace (Script.for_each (page_step base_url page_count api_key) acc pages w).2)
    = fetched (trace w) ++ map (page_url base_url) (take k pages) /\
    ((exists v, (Script.for_each (page_step base_url page_count api_key) acc pages w).1 = Ok v)
       -> k = length pages) /\
    (pages <> [] -> (1 <= k)%nat).
Proof.
  revert acc w. induction pages as [|page pages IH]; intros acc w; simpl.
  - exists 0%nat. simpl. rewrite app_nil_r. by repeat split.
  - unfold mbind, M_bind.
    pose proof (page_step_fetched base_url page_count api_key acc page w) as Hs.
    destruct (page_step base_url page_count api_key acc page w) as [[acc'|e] w1]; simpl in *.
    + destruct (IH acc' w1) as (k & Hk & Hf & Hok & _).
      exists (S k). simpl. repeat split; [lia| |auto|lia].
      rewrite Hf, Hs. by rewrite <- app_assoc.
    + exists 1%nat. simpl. rewrite ?take_0. repeat split; [lia|done| |done].
      intros [v Hv]. discriminate.
Qed.

Lemma range_pages n :
  PyList.range 1 (n + 1) = map Z.of_nat (seq 1 (Z.to_nat n)).
Proof.
  unfold PyList.range. replace (n + 1 - 1) with n by lia.
  rewrite <- seq_shift, map_map. apply map_ext. intros k. lia.
Qed.

End LoopFacts.

(** ** Where a label comes from *)

Section OriginFacts.

Context {RT : Runtime}.

Lemma apply_line_origin n labels line l :
  l ∈ apply_line n labels line -> l ∈ labels \/ carries n line l.
Proof.
  unfold apply_line.
  destruct (line_entry line) as [[i lbl]|] eqn:E; [|by left].
  destruct ((1 <=? i) && (i <=? Z.of_nat n)) eqn:Hr; [|by left].
  intros [j Hj]%list_elem_of_lookup.
  apply list_lookup_insert_Some in Hj as [(_ & <- & _)|(_ & Hj)].
  - right. exists i. split; [done|lia].
  - left. apply list_elem_of_lookup. eauto.
Qed.

Lemma foldl_apply_origin n lines labels l :
  l ∈ foldl (apply_line n) labels lines ->
  l ∈ labels \/ exists line, line ∈ lines /\ carries n line l.
Proof.
  revert labels. induction lines as [|line lines IH]; intros labels; simpl; [by left|].
  intros [Hin|(later & Hin & Hc)]%IH.
  - apply apply_line_origin in Hin as [Hin|Hc]; [by left|].
    right. exists line. split; [by left|done].
  - right. exists later. split; [by right|done].
Qed.

Lemma apply_line_discard n labels line :
  (forall lbl, ~ carries n line lbl) -> apply_line n labels line = labels.
Proof.
  intros Hno. unfold apply_line.
  destruct (line_entry line) as [[i lbl]|] eqn:E; [|reflexivity].
  destruct ((1 <=? i) && (i <=? Z.of_nat n)) eqn:Hr; [|reflexivity].
  destruct (Hno lbl). exists i. split; [done|lia].
Qed.

Lemma foldl_apply_discard n lines labels :
  (forall line lbl, line ∈ lines -> ~ carries n line lbl) ->
  foldl (apply_line n) labels lines = labels.
Proof.
  revert labels. induction lines as [|line lines IH]; intros labels Hno; simpl; [reflexivity|].
  rewrite apply_line_discard by (intros lbl; apply Hno; by left).
  apply IH. intros later lbl Hin. apply Hno. by right.
Qed.

End OriginFacts.

(** * The claims *)

(** C1, as the code has it: for every headline list and every reply text
    of the model, when today's counter plus the estimate of 120 tokens a
    headline is within the daily limit and the model call returns that
    text, the classifier returns exactly [len(headlines)] labels; they
    are what the reply's lines make of a list holding the sentinel at
    every position, so every position is filled. *)
Theorem label_array_invariant {RT : Runtime}
    (headlines : list pyval) (api_key response_text : pystr)
    (rest : list (option pystr)) (w : world) (used : Z) :
  daily_tokens w !! TODAY = Some used ->
  used + PyList.len headlines * 120 <= DAILY_TOKEN_LIMIT ->
  chat_completions_create (trace w) (build_prompt headlines)
    = Ok (Some response_text :: rest) ->
  exists labels,
    (extract_prefecture_with_llm headlines api_key w).1 = Ok labels /\
    length labels = length headlines /\
    for_each (parse_line (PyList.len headlines))
             (replicate (length headlines) unknown)
             (Str.split newline (Str.strip response_text)) = Ok labels /\
    forall p, (p < length headlines)%nat ->
      replicate (length headlines) unknown !! p = Some unknown /\
      is_Some (labels !! p).
Proof.
  intros Hu Hb Hc.
  exists (merged_labels (length headlines) response_text).
  rewrite classifier_run, Hu. simpl.
  destruct (used + PyList.len headlines * 120 >? DAILY_TOKEN_LIMIT) eqn:E; [lia|].
  rewrite Hc. simpl.
  split; [reflexivity|]. split; [apply merged_labels_length|].
  split; [apply parse_response_merged|].
  intros p Hp. split.
  - by apply lookup_replicate_2.
  - apply lookup_lt_is_Some. by rewrite merged_labels_length.
Qed.

Lemma label_array_invariant_witness :
  exists labels,
    (extract_prefecture_with_llm
       (RT := Canned.runtime 3 (Str.lit "2,大阪府")) ABC [] Canned.fresh).1 = Ok labels /\
    length labels = 3%nat.
Proof.
  destruct (label_array_invariant (RT := Canned.runtime 3 (Str.lit "2,大阪府"))
              ABC [] (Str.lit "2,大阪府") [] Canned.fresh 0)
    as (labels & Hrun & Hlen & _).
  - reflexivity.
  - vm_compute. discriminate.
  - reflexivity.
  - exists labels. split; [exact Hrun|exact Hlen].
Defined.

(** C1 fails as stated: for 126 headlines on a fresh day the estimate is
    15120 tokens, the budget guard stops the run, and the classifier
    returns no label at all, although the reply "1,東京都" applied to
    126 headlines would give 126 labels. *)
Lemma label_array_counterexample :
  extract_prefecture_with_llm (RT := Canned.runtime 126 (Str.lit "1,東京都"))
    (replicate 126 (PyStr (Str.lit "A"))) [] Canned.fresh
  = (Raise StopException,
     World (daily_tokens Canned.fresh) [st_error budget_message])
  /\ parse_response (RT := Canned.runtime 126 (Str.lit "1,東京都"))
       (replicate 126 (PyStr (Str.lit "A"))) (Str.lit "1,東京都")
     = Ok (Str.lit "東京都" :: replicate 125 unknown).
Proof. split; vm_compute; reflexivity. Qed.

(** C2: the reply is applied line by line. A line that holds a comma is
    cut at its first comma (the text before the cut holds none); when the text before it reads as an integer
    [i] with [1 <= i <= len(headlines)], position [i - 1] takes the
    trimmed text after it; every other line is discarded and the parse
    goes on. A position no such line addresses stays unknown, so a reply
    that is empty or has no such line gives unknown everywhere, and for
    three headlines the reply "1,Tokyo\n3,Osaka" gives Tokyo, unknown,
    Osaka. *)
Theorem reply_applied_line_by_line {RT : Runtime}
    (headlines : list pyval) (response_text : pystr) :
  let n := length headlines in
  parse_response headlines response_text = Ok (merged_labels n response_text) /\
  (forall labels line, length labels = n ->
     parse_line (Z.of_nat n) labels line = Ok (apply_line n labels line)) /\
  (forall l, Str.contains comma l = true ->
     Str.split1 comma l = [Str.before comma l; Str.after comma l] /\
     l = Str.before comma l ++ comma :: Str.after comma l /\
     Str.contains comma (Str.before comma l) = false) /\
  (forall p, (p < n)%nat ->
     (forall line lbl, line ∈ reply_lines response_text ->
        line_entry line <> Some (Z.of_nat p + 1, lbl)) ->
     merged_labels n response_text !! p = Some unknown) /\
  ((forall line lbl, line ∈ reply_lines response_text -> ~ carries n line lbl) ->
     parse_response headlines response_text = Ok (replicate n unknown)) /\
  parse_response headlines [] = Ok (replicate n unknown) /\
  (py_int (Str.lit "1") = Some 1 -> py_int (Str.lit "3") = Some 3 ->
     parse_response ABC (Str.lit "1,Tokyo
3,Osaka") = Ok [Str.lit "Tokyo"; unknown; Str.lit "Osaka"]).
Proof.
  intros n. split; [apply parse_response_merged|].
  split; [intros labels line Hn; by apply parse_line_apply|].
  split.
  { intros l Hl. split; [by apply split1_cut|].
    split; [by apply cut_join|apply before_no_sep]. }
  split; [|split; [|split]].
  - intros p Hp Hmiss. unfold merged_labels.
    rewrite (foldl_apply_miss _ _ _ _ Hmiss). by apply lookup_replicate_2.
  - intros Hno. rewrite parse_response_merged. unfold merged_labels.
    by rewrite (foldl_apply_discard _ _ _ Hno).
  - rewrite parse_response_merged. reflexivity.
  - intros H1 H3. rewrite parse_response_merged.
    assert (E1 : line_entry (Str.lit "1,Tokyo") = Some (1, Str.lit "Tokyo")).
    { unfold line_entry.
      change (Str.strip (Str.before comma (Str.strip (Str.lit "1,Tokyo")))) with (Str.lit "1").
      by rewrite H1. }
    assert (E3 : line_entry (Str.lit "3,Osaka") = Some (3, Str.lit "Osaka")).
    { unfold line_entry.
      change (Str.strip (Str.before comma (Str.strip (Str.lit "3,Osaka")))) with (Str.lit "3").
      by rewrite H3. }
    unfold merged_labels.
    change (reply_lines _) with [Str.lit "1,Tokyo"; Str.lit "3,Osaka"].
    simpl foldl. unfold apply_line. rewrite E1. simpl. rewrite E3. reflexivity.
Qed.

Lemma reply_applied_line_by_line_witness :
  parse_response (RT := Canned.runtime 3 []) ABC (Str.lit "1,Tokyo
3,Osaka") = Ok [Str.lit "Tokyo"; unknown; Str.lit "Osaka"]
  /\ parse_response (RT := Canned.runtime 3 []) ABC (Str.lit "hello
9,Tokyo") = Ok [unknown; unknown; unknown].
Proof.
  split.
  - destruct (reply_applied_line_by_line (RT := Canned.runtime 3 []) ABC [])
      as (_ & _ & _ & _ & _ & _ & Hexample).
    apply Hexample; reflexivity.
  - destruct (reply_applied_line_by_line (RT := Canned.runtime 3 []) ABC (Str.lit "hello
9,Tokyo")) as (_ & _ & _ & _ & Hnone & _).
    apply Hnone.
    intros line lbl Hin (i & Hentry & Hrange).
    change (reply_lines (Str.lit "hello
9,Tokyo")) with [Str.lit "hello"; Str.lit "9,Tokyo"] in Hin.
    apply elem_of_cons in Hin as [->|Hin]; [discriminate|].
    apply list_elem_of_singleton in Hin as ->.
    vm_compute in Hentry. injection Hentry as <- _. vm_compute in Hrange.
    destruct Hrange as [_ Hle]. by apply Hle.
Defined.

(** C3: with [used] tokens spent today and an estimate of 120 tokens a
    headline, the model is called exactly when
    [used + estimate <= 15000]. Otherwise the classifier shows the
    budget message and stops: no prompt is sent and the counters are
    as before; when this happens on a page, the page loop ends there
    with the stop, so no later page is processed. *)
Theorem budget_gate {RT : Runtime}
    (headlines : list pyval) (api_key : pystr) (w : world) (used : Z) :
  daily_tokens w !! TODAY = Some used ->
  let estimated := PyList.len headlines * 120 in
  (used + estimated <= 15000 <->
     prompts (trace (extract_prefecture_with_llm headlines api_key w).2)
     = prompts (trace w) ++ [build_prompt headlines]) /\
  (used + estimated > 15000 ->
     extract_prefecture_with_llm headlines api_key w
     = (Raise StopException,
        World (daily_tokens w) (trace w ++ [st_error budget_message])) /\
     prompts (trace (extract_prefecture_with_llm headlines api_key w).2)
     = prompts (trace w)) /\
  (used + estimated > 15000 ->
   forall base_url page_count acc page pages w0 text,
     fetch (page_url base_url page)
           (Script.emit (st_write (page_banner page (page_url base_url page))) w0).2
     = (Ok text, w) ->
     extract_headlines_with_beautifulsoup text = Ok headlines ->
     Script.for_each (page_step base_url page_count api_key) acc (page :: pages) w0
     = (Raise StopException,
        World (daily_tokens w) (trace w ++ [st_error budget_message]))).
Proof.
  intros Hu estimated.
  assert (Hstop : used + estimated > 15000 ->
    extract_prefecture_with_llm headlines api_key w
    = (Raise StopException,
       World (daily_tokens w) (trace w ++ [st_error budget_message]))).
  { intros Hover. rewrite classifier_run, Hu. simpl. fold estimated.
    unfold DAILY_TOKEN_LIMIT. by destruct (used + estimated >? 15000) eqn:E; [|lia]. }
  assert (Hsent : used + estimated <= 15000 ->
    prompts (trace (extract_prefecture_with_llm headlines api_key w).2)
    = prompts (trace w) ++ [build_prompt headlines]).
  { intros Hfit. rewrite classifier_run, Hu. simpl. fold estimated.
    unfold DAILY_TOKEN_LIMIT. destruct (used + estimated >? 15000) eqn:E; [lia|].
    destruct (chat_completions_create _ _) as [[|[text|] rest]|e]; simpl;
      unfold prompts; by rewrite omap_app. }
  split; [split; [exact Hsent|]|split].
  - intros Hp. destruct (Z_le_gt_dec (used + estimated) 15000) as [|Hover]; [done|].
    rewrite (Hstop Hover) in Hp. simpl in Hp. unfold prompts in Hp.
    rewrite omap_app in Hp. simpl in Hp. rewrite app_nil_r in Hp.
    apply (f_equal length) in Hp. rewrite length_app in Hp. simpl in Hp. lia.
  - intros Hover. split; [by apply Hstop|].
    rewrite (Hstop Hover). simpl. unfold prompts.
    rewrite omap_app. simpl. by rewrite app_nil_r.
  - intros Hover base_url page_count acc page pages w0 text Hfetch Hextract.
    cbn [Script.for_each]. unfold page_step, mbind, M_bind.
    unfold Script.emit in *. cbn [snd] in Hfetch. cbn beta iota.
    rewrite Hfetch. unfold Script.lift. rewrite Hextract.
    by rewrite (Hstop Hover).
Qed.

Lemma budget_gate_witness :
  extract_prefecture_with_llm (RT := Canned.runtime 3 []) ABC []
    (World {[ Str.lit "2024-01-01" := 14760 ]} [])
  = (Raise StopException,
     World {[ Str.lit "2024-01-01" := 14760 ]} [st_error budget_message])
  /\ prompts (trace (extract_prefecture_with_llm (RT := Canned.runtime 3 []) ABC []
                       (World {[ Str.lit "2024-01-01" := 14640 ]} [])).2)
     = [build_prompt (RT := Canned.runtime 3 []) ABC].
Proof.
  split.
  - destruct (budget_gate (RT := Canned.runtime 3 []) ABC []
                (World {[ Str.lit "2024-01-01" := 14760 ]} []) 14760) as (_ & Hstop & _);
      [reflexivity|].
    apply Hstop. reflexivity.
  - destruct (budget_gate (RT := Canned.runtime 3 []) ABC []
                (World {[ Str.lit "2024-01-01" := 14640 ]} []) 14640) as (Hiff & _);
      [reflexivity|].
    apply Hiff. vm_compute. discriminate.
Defined.




(** C6: once the budget check has passed, a model call that returns
    leaves today's counter at its old value plus [len(headlines) * 120],
    whatever the completion holds; a call that raises leaves every
    counter as it was. *)
Theorem commit_after_successful_call {RT : Runtime}
    (headlines : list pyval) (api_key : pystr) (w : world) (used : Z) :
  daily_tokens w !! TODAY = Some used ->
  used + PyList.len headlines * 120 <= DAILY_TOKEN_LIMIT ->
  (forall choices,
     chat_completions_create (trace w) (build_prompt headlines) = Ok choices ->
     daily_tokens (extract_prefecture_with_llm headlines api_key w).2
     = <[TODAY := used + PyList.len headlines * 120]> (daily_tokens w)) /\
  (forall e,
     chat_completions_create (trace w) (build_prompt headlines) = Raise e ->
     extract_prefecture_with_llm headlines api_key w
     = (Raise e, World (daily_tokens w)
                       (trace w ++ [chat_completion (build_prompt headlines)]))).
Proof.
  intros Hu Hfit. split.
  - intros choices Hc. rewrite classifier_run, Hu. simpl.
    destruct (used + PyList.len headlines * 120 >? DAILY_TOKEN_LIMIT) eqn:E; [lia|].
    rewrite Hc. by destruct choices as [|[text|] rest].
  - intros e Hc. rewrite classifier_run, Hu. simpl.
    destruct (used + PyList.len headlines * 120 >? DAILY_TOKEN_LIMIT) eqn:E; [lia|].
    by rewrite Hc.
Qed.

Lemma commit_after_successful_call_witness :
  daily_tokens (extract_prefecture_with_llm (RT := Canned.runtime 3 []) ABC []
                  (World {[ Str.lit "2024-01-01" := 240 ]} [])).2
  = <[Str.lit "2024-01-01" := 240 + 3 * 120]> {[ Str.lit "2024-01-01" := 240 ]}.
Proof.
  destruct (commit_after_successful_call (RT := Canned.runtime 3 []) ABC []
              (World {[ Str.lit "2024-01-01" := 240 ]} []) 240) as (Hok & _).
  - reflexivity.
  - vm_compute. discriminate.
  - apply (Hok [Some []]). reflexivity.
Defined.

(** C5, as the code has it: page 1 is requested at the base URL itself
    and page [K > 1] at the base URL followed by [str(K)], the decimal
    digits of [K]; the requests of a run are, in order, those of pages [1..k] for
    some [k <= N], with [k = N] when the loop runs to its end and
    [k >= 1] when [N >= 1]. *)
Theorem pagination_url_rule {RT : Runtime}
    (base_url : pystr) (page_count : Z) (api_key : pystr) (w : world) :
  (exists k : nat,
     (k <= Z.to_nat page_count)%nat /\
     fetched (trace (page_loop base_url page_count api_key w).2)
     = fetched (trace w) ++ page_urls base_url k /\
     ((exists v, (page_loop base_url page_count api_key w).1 = Ok v) ->
        k = Z.to_nat page_count) /\
     (1 <= page_count -> (1 <= k)%nat)) /\
  page_url base_url 1 = base_url /\
  (forall K, K <> 1 -> page_url base_url K = base_url ++ Str.of_int K) /\
  (forall K, 0 <= K ->
     Str.decimal_value (Str.of_int K) = K /\
     Forall (fun c => 48 <= c <= 57) (Str.of_int K)) /\
  page_urls (Str.lit "https://x.test/list") 3
  = [Str.lit "https://x.test/list"; Str.lit "https://x.test/list2";
     Str.lit "https://x.test/list3"].
Proof.
  split; [|split; [reflexivity|split; [|split; [apply of_int_decimal|reflexivity]]]].
  - unfold page_loop, mbind, M_bind. simpl. rewrite range_pages.
    set (w0 := World _ _).
    assert (Hw0 : fetched (trace w0) = fetched (trace w)).
    { unfold w0. simpl. rewrite fetched_app. simpl. apply app_nil_r. }
    rewrite <- Hw0.
    destruct (for_each_fetched base_url page_count api_key
                (map Z.of_nat (seq 1 (Z.to_nat page_count))) ([], []) w0)
      as (k & Hk & Hf & Hok & Hne).
    rewrite length_map, length_seq in Hk, Hok.
    exists k. split; [exact Hk|]. split; [|split; [exact Hok|]].
    + rewrite Hf. f_equal. unfold page_urls.
      rewrite <- firstn_map, map_map. rewrite firstn_map.
      f_equal. rewrite take_seq. f_equal. lia.
    + intros Hpos. apply Hne.
      destruct (Z.to_nat page_count) as [|m] eqn:E; [lia|]. discriminate.
  - intros K HK. unfold page_url. by destruct (K =? 1) eqn:E; [lia|].
Qed.

Lemma pagination_url_rule_witness :
  fetched (trace (page_loop (RT := Canned.runtime 1 (Str.lit "1,東京都"))
                    (Str.lit "https://x.test/list") 3 [] Canned.fresh).2)
  = [Str.lit "https://x.test/list"; Str.lit "https://x.test/list2";
     Str.lit "https://x.test/list3"].
Proof.
  destruct (pagination_url_rule (RT := Canned.runtime 1 (Str.lit "1,東京都"))
              (Str.lit "https://x.test/list") 3 [] Canned.fresh)
    as ((k & _ & Hf & Hok & _) & _ & _ & _ & Hex).
  rewrite Hf. rewrite (Hok ltac:(vm_compute; eauto)). exact Hex.
Defined.

(** C5 fails as stated: with page count 3 and a first page of 126
    headlines the estimate is 15120 tokens, the budget guard stops the
    run, and one URL has been requested, not three. *)
Lemma pagination_counterexample :
  fetched (trace (page_loop (RT := Canned.runtime 126 [])
                    (Str.lit "https://x.test/list") 3 [] Canned.fresh).2)
  = [Str.lit "https://x.test/list"]
  /\ (page_loop (RT := Canned.runtime 126 [])
        (Str.lit "https://x.test/list") 3 [] Canned.fresh).1 = Raise StopException.
Proof. split; vm_compute; reflexivity. Qed.

(** C7: when several lines of a reply carry the same index in range,
    the label kept at that position is the one of the last of them. *)
Theorem last_occurrence_wins {RT : Runtime}
    (headlines : list pyval) (response_text : pystr)
    (earlier : list pystr) (line : pystr) (later : list pystr)
    (p : nat) (lbl : pystr) :
  reply_lines response_text = earlier ++ line :: later ->
  (p < length headlines)%nat ->
  line_entry line = Some (Z.of_nat p + 1, lbl) ->
  (forall line' lbl', line' ∈ later -> line_entry line' <> Some (Z.of_nat p + 1, lbl')) ->
  exists labels,
    parse_response headlines response_text = Ok labels /\ labels !! p = Some lbl.
Proof.
  intros Hlines Hp Hentry Hlater.
  exists (merged_labels (length headlines) response_text).
  split; [apply parse_response_merged|].
  unfold merged_labels. rewrite Hlines.
  apply foldl_apply_last; [apply length_replicate|done..].
Qed.

Lemma last_occurrence_wins_witness :
  exists labels,
    parse_response (RT := Canned.runtime 3 []) ABC (Str.lit "1,a
2,c
1,b
3,d") = Ok labels /\ labels !! 0%nat = Some (Str.lit "b").
Proof.
  apply (last_occurrence_wins (RT := Canned.runtime 3 []) ABC _
           [Str.lit "1,a"; Str.lit "2,c"] (Str.lit "1,b") [Str.lit "3,d"] 0).
  - reflexivity.
  - simpl. lia.
  - reflexivity.
  - intros line' lbl' Hin. apply list_elem_of_singleton in Hin as ->.
    vm_compute. discriminate.
Defined.

(** C8: no step of the pipeline lowers the counter of any date: not the
    creation of today's entry, not the classifier (whose budget check
    leaves the counters alone and whose only write adds
    [len(headlines) * 120 >= 0] to today's), not the page loop, not the
    run handler. *)
Theorem usage_never_decreases {RT : Runtime}
    (key : pystr) (w : world) (headlines : list pyval)
    (base_url api_key : pystr) (page_count : Z) :
  usage key w <= usage key (init_daily_tokens w) /\
  usage key w <= usage key (extract_prefecture_with_llm headlines api_key w).2 /\
  usage key w <= usage key (page_loop base_url page_count api_key w).2 /\
  usage key w <= usage key (on_run base_url page_count api_key w).2 /\
  (forall used, daily_tokens w !! TODAY = Some used ->
     used + PyList.len headlines * 120 > DAILY_TOKEN_LIMIT ->
     daily_tokens (extract_prefecture_with_llm headlines api_key w).2 = daily_tokens w) /\
  (daily_tokens (extract_prefecture_with_llm headlines api_key w).2 = daily_tokens w \/
   exists used,
     daily_tokens w !! TODAY = Some used /\
     daily_tokens (extract_prefecture_with_llm headlines api_key w).2
     = <[TODAY := used + PyList.len headlines * 120]> (daily_tokens w)) /\
  0 <= PyList.len headlines * 120.
Proof.
  split; [apply init_grows|].
  split; [apply grows_classifier|].
  split; [apply grows_page_loop|].
  split; [apply grows_on_run|].
  split.
  { intros used Hu Hover. rewrite classifier_run, Hu. simpl.
    by destruct (used + PyList.len headlines * 120 >? DAILY_TOKEN_LIMIT) eqn:E; [|lia]. }
  split; [|unfold PyList.len; lia].
  rewrite classifier_run.
  destruct (daily_tokens w !! TODAY) as [used|]; simpl; [|by left].
  destruct (used + PyList.len headlines * 120 >? DAILY_TOKEN_LIMIT); simpl; [by left|].
  destruct (chat_completions_create _ _) as [[|[text|] rest]|e]; simpl;
    first [by left | right; by exists used].
Qed.

Lemma usage_never_decreases_witness :
  usage (Str.lit "2024-01-01") Canned.fresh
  <= usage (Str.lit "2024-01-01")
       (page_loop (RT := Canned.runtime 1 []) (Str.lit "https://x.test/list") 3 []
          Canned.fresh).2
  /\ daily_tokens (extract_prefecture_with_llm (RT := Canned.runtime 1 []) ABC []
                     (World {[ Str.lit "2024-01-01" := 14760 ]} [])).2
     = {[ Str.lit "2024-01-01" := 14760 ]}.
Proof.
  split.
  - apply (usage_never_decreases (RT := Canned.runtime 1 []) (Str.lit "2024-01-01")
             Canned.fresh ABC (Str.lit "https://x.test/list") [] 3).
  - destruct (usage_never_decreases (RT := Canned.runtime 1 []) (Str.lit "2024-01-01")
                (World {[ Str.lit "2024-01-01" := 14760 ]} []) ABC [] [] 3)
      as (_ & _ & _ & _ & Hcheck & _).
    apply (Hcheck 14760); reflexivity.
Defined.

(** C9, as the code has it: every label the classifier returns is the
    sentinel or the trimmed text after the first comma of a reply line
    whose index lies in [1..len(headlines)]; the text is stored as the
    model wrote it. *)
Theorem labels_come_from_reply {RT : Runtime}
    (headlines : list pyval) (api_key : pystr) (w : world) (labels : list pystr) :
  (extract_prefecture_with_llm headlines api_key w).1 = Ok labels ->
  exists response_text rest,
    chat_completions_create (trace w) (build_prompt headlines)
      = Ok (Some response_text :: rest) /\
    parse_response headlines response_text = Ok labels /\
    forall l, l ∈ labels ->
      l = unknown \/
      exists line, line ∈ reply_lines response_text /\ carries (length headlines) line l.
Proof.
  rewrite classifier_run.
  destruct (daily_tokens w !! TODAY) as [used|]; simpl; [|discriminate].
  destruct (used + PyList.len headlines * 120 >? DAILY_TOKEN_LIMIT); simpl; [discriminate|].
  destruct (chat_completions_create _ _) as [[|[text|] rest]|e]; simpl; try discriminate.
  intros [= <-]. exists text, rest.
  split; [reflexivity|]. split; [apply parse_response_merged|].
  intros l [Hin|Hline]%foldl_apply_origin; [|by right].
  left. by apply elem_of_replicate in Hin as [-> _].
Qed.

Lemma labels_come_from_reply_witness :
  exists response_text rest,
    chat_completions_create (Runtime := Canned.runtime 3 (Str.lit "2,大阪府")) []
      (build_prompt (RT := Canned.runtime 3 (Str.lit "2,大阪府")) ABC)
      = Ok (Some response_text :: rest) /\
    parse_response (RT := Canned.runtime 3 (Str.lit "2,大阪府")) ABC response_text
      = Ok [unknown; Str.lit "大阪府"; unknown].
Proof.
  destruct (labels_come_from_reply (RT := Canned.runtime 3 (Str.lit "2,大阪府"))
              ABC [] Canned.fresh [unknown; Str.lit "大阪府"; unknown])
    as (text & rest & Hc & Hp & _).
  - vm_compute. reflexivity.
  - exists text, rest. split; [exact Hc|exact Hp].
Defined.

(** C9 fails as stated: for one headline and the reply "1,Paris" the
    classifier returns the label "Paris", which is neither the sentinel
    nor the name of a prefecture. *)
Lemma labels_counterexample :
  (extract_prefecture_with_llm (RT := Canned.runtime 1 (Str.lit "1,Paris"))
     [PyStr (Str.lit "A")] [] Canned.fresh).1 = Ok [Str.lit "Paris"]
  /\ is_label (Str.lit "Paris") = false.
Proof. split; vm_compute; reflexivity. Qed.

(** C10: a line whose index is zero or negative changes no label,
    whatever the labels are; without the lower bound of the guard the
    assignment would have written the position counted from the end. *)
Theorem nonpositive_index_ignored {RT : Runtime}
    (n : Z) (labels : list pystr) (line : pystr) (i : Z) (lbl : pystr) :
  line_entry line = Some (i, lbl) ->
  i <= 0 ->
  parse_line n labels line = Ok labels /\
  (- PyList.len labels <= i - 1 ->
   PyList.setitem labels (i - 1) lbl
   = Ok (<[Z.to_nat (PyList.len labels + (i - 1)) := lbl]> labels)).
Proof.
  intros Hentry Hi. split.
  - rewrite parse_line_entry, Hentry.
    by destruct ((0 <=? i - 1) && (i - 1 <? n)) eqn:E; [lia|].
  - intros Hlow. unfold PyList.setitem.
    destruct (i - 1 <? 0) eqn:E; [|lia].
    by destruct ((0 <=? PyList.len labels + (i - 1))
                 && (PyList.len labels + (i - 1) <? PyList.len labels)) eqn:E'; [|lia].
Qed.

Lemma nonpositive_index_ignored_witness :
  parse_line (RT := Canned.runtime 3 []) 3
    [unknown; unknown; unknown] (Str.lit "0,東京都") = Ok [unknown; unknown; unknown]
  /\ PyList.setitem [unknown; unknown; unknown] (0 - 1) (Str.lit "東京都")
     = Ok [unknown; unknown; Str.lit "東京都"].
Proof.
  destruct (nonpositive_index_ignored (RT := Canned.runtime 3 []) 3
              [unknown; unknown; unknown] (Str.lit "0,東京都") 0 (Str.lit "東京都"))
    as (Hkeep & Hwrap).
  - reflexivity.
  - lia.
  - split; [exact Hkeep|]. apply Hwrap. vm_compute. discriminate.
Defined.

(** * Further properties of the script *)

(** ** Trimming and splitting *)

Lemma lstrip_app x y :
  Str.lstrip (x ++ y) =
  match Str.lstrip x with
  | [] => Str.lstrip y
  | c :: r => c :: r ++ y
  end.
Proof.
  induction x as [|c x IH]; simpl; [reflexivity|].
  destruct (Str.isspace c); [exact IH|reflexivity].
Qed.

(** [rstrip] read from the left: a character is kept when something
    after it is kept or when it is not blank. *)
Lemma rstrip_cons c s :
  Str.rstrip (c :: s) =
  match Str.rstrip s with
  | [] => if Str.isspace c then [] else [c]
  | _ :: _ => c :: Str.rstrip s
  end.
Proof.
  unfold Str.rstrip. simpl. rewrite lstrip_app.
  destruct (Str.lstrip (rev s)) as [|a r]; simpl.
  - by destruct (Str.isspace c).
  - rewrite rev_app_distr. simpl.
    destruct (rev r ++ [a]) as [|b t] eqn:E; [by destruct (rev r)|reflexivity].
Qed.

Lemma rstrip_keep c s : Str.isspace c = false -> Str.rstrip (c :: s) = c :: Str.rstrip s.
Proof. intros Hc. rewrite rstrip_cons, Hc. by destruct (Str.rstrip s). Qed.

Lemma rstrip_app_keep x y : Str.rstrip y <> [] -> Str.rstrip (x ++ y) = x ++ Str.rstrip y.
Proof.
  intros Hy. induction x as [|c x IH]; simpl; [reflexivity|].
  rewrite rstrip_cons, IH. by destruct (x ++ Str.rstrip y) eqn:E; [destruct x|].
Qed.

Lemma rstrip_idemp s : Str.rstrip (Str.rstrip s) = Str.rstrip s.
Proof.
  induction s as [|c s IH]; [reflexivity|].
  rewrite rstrip_cons. destruct (Str.rstrip s) as [|a r] eqn:E.
  - destruct (Str.isspace c) eqn:Hc; [reflexivity|].
    by rewrite rstrip_cons, Hc.
  - rewrite rstrip_cons, IH. reflexivity.
Qed.

Lemma lstrip_rstrip s : Str.lstrip (Str.rstrip s) = Str.rstrip (Str.lstrip s).
Proof.
  induction s as [|c s IH]; [reflexivity|].
  rewrite rstrip_cons. simpl. destruct (Str.isspace c) eqn:Hc.
  - rewrite <- IH. destruct (Str.rstrip s) as [|a r]; [reflexivity|].
    simpl. by rewrite Hc.
  - rewrite (rstrip_keep _ _ Hc).
    destruct (Str.rstrip s) as [|a r]; simpl; by rewrite Hc.
Qed.

(** Trimming the right end first changes nothing of the trimmed text. *)
Lemma strip_rstrip s : Str.strip (Str.rstrip s) = Str.strip s.
Proof. unfold Str.strip. by rewrite lstrip_rstrip, rstrip_idemp. Qed.

Lemma strip_no_blank s :
  Forall (fun c => Str.isspace c = false) s -> Str.strip s = s.
Proof.
  intros Hs. unfold Str.strip.
  assert (Hl : Str.lstrip s = s).
  { destruct Hs as [|c s Hc _]; simpl; [reflexivity|by rewrite Hc]. }
  rewrite Hl. clear Hl. induction Hs as [|c s Hc _ IH]; [reflexivity|].
  by rewrite (rstrip_keep _ _ Hc), IH.
Qed.

Lemma contains_rstrip sep s :
  Str.contains sep s = false -> Str.contains sep (Str.rstrip s) = false.
Proof.
  induction s as [|c s IH]; [reflexivity|].
  simpl. intros [Hc Hs]%orb_false_elim. rewrite rstrip_cons.
  specialize (IH Hs). destruct (Str.rstrip s) as [|a r].
  - destruct (Str.isspace c); simpl; by rewrite ?Hc.
  - change (Str.contains sep (c :: a :: r)) with ((sep =? c) || Str.contains sep (a :: r)).
    by rewrite Hc, IH.
Qed.

Lemma split_no_sep sep s : Str.contains sep s = false -> Str.split sep s = [s].
Proof.
  induction s as [|c s IH]; simpl; [reflexivity|].
  intros [Hc Hs]%orb_false_elim. rewrite (Z.eqb_sym c sep), Hc.
  by rewrite (IH Hs).
Qed.

Lemma split_app_sep sep a b :
  Str.contains sep a = false ->
  Str.split sep (a ++ sep :: b) = a :: Str.split sep b.
Proof.
  induction a as [|c a IH]; simpl.
  - intros _. by rewrite Z.eqb_refl.
  - intros [Hc Ha]%orb_false_elim. rewrite (Z.eqb_sym c sep), Hc.
    by rewrite (IH Ha).
Qed.

(** Joining with a separator and splitting at it gives the parts back,
    when there is a part and no part holds the separator. *)
Lemma split_join sep parts :
  parts <> [] ->
  Forall (fun p => Str.contains sep p = false) parts ->
  Str.split sep (Str.join [sep] parts) = parts.
Proof.
  intros Hne Hparts. induction Hparts as [|p ps Hp Hps IH]; [done|].
  destruct ps as [|q ps]; simpl.
  - by apply split_no_sep.
  - change (Str.split sep (p ++ sep :: Str.join [sep] (q :: ps)) = p :: q :: ps).
    rewrite (split_app_sep _ _ _ Hp). f_equal. by apply IH.
Qed.

Lemma before_app_sep sep a b :
  Str.contains sep a = false -> Str.before sep (a ++ sep :: b) = a.
Proof.
  induction a as [|c a IH]; simpl.
  - intros _. by rewrite Z.eqb_refl.
  - intros [Hc Ha]%orb_false_elim. rewrite (Z.eqb_sym c sep), Hc.
    by rewrite (IH Ha).
Qed.

Lemma after_app_sep sep a b :
  Str.contains sep a = false -> Str.after sep (a ++ sep :: b) = b.
Proof.
  induction a as [|c a IH]; simpl.
  - intros _. by rewrite Z.eqb_refl.
  - intros [Hc Ha]%orb_false_elim. rewrite (Z.eqb_sym c sep), Hc.
    by apply IH.
Qed.

Lemma contains_app sep a b :
  Str.contains sep (a ++ b) = Str.contains sep a || Str.contains sep b.
Proof. apply existsb_app. Qed.

Lemma digits_no_char (c : Z) ds :
  (c < 48 \/ 57 < c) ->
  Forall (fun d => 48 <= d <= 57) ds -> Str.contains c ds = false.
Proof.
  intros Hc Hds. induction Hds as [|d ds Hd _ IH]; [reflexivity|].
  simpl. rewrite IH. destruct (c =? d) eqn:E; [lia|reflexivity].
Qed.

Lemma digits_no_blank ds :
  Forall (fun d => 48 <= d <= 57) ds -> Forall (fun c => Str.isspace c = false) ds.
Proof.
  intros Hds. eapply Forall_impl; [exact Hds|].
  intros d Hd. simpl in *. destruct (Str.isspace d) eqn:E; [|reflexivity].
  unfold Str.isspace in E. lia.
Qed.

Lemma of_int_nonempty k : 1 <= k -> Str.of_int k <> [].
Proof.
  intros Hk Hnil. destruct (of_int_decimal k ltac:(lia)) as [Hval _].
  rewrite Hnil in Hval. unfold Str.decimal_value in Hval. simpl in Hval. lia.
Qed.

(** ** A reply that answers every headline *)

Section ReplyFacts.

Context {RT : Runtime}.

Lemma of_int_digits k :
  1 <= k ->
  Forall (fun d => 48 <= d <= 57) (Str.of_int k) /\ Str.of_int k <> [].
Proof.
  intros Hk. split; [apply of_int_decimal; lia|by apply of_int_nonempty].
Qed.

Lemma lstrip_answer_line k label tail :
  1 <= k ->
  Str.lstrip (answer_line k label ++ tail) = answer_line k label ++ tail.
Proof.
  intros Hk. destruct (of_int_digits k Hk) as [Hd Hne]. unfold answer_line.
  destruct (Str.of_int k) as [|d ds]; [done|]. simpl.
  apply digits_no_blank in Hd. inversion Hd as [|? ? Hsp _]; subst.
  by rewrite Hsp.
Qed.

Lemma rstrip_answer_line head k label :
  Str.rstrip (head ++ answer_line k label) = head ++ answer_line k (Str.rstrip label).
Proof.
  unfold answer_line. rewrite (app_assoc head).
  rewrite rstrip_app_keep; rewrite (rstrip_keep comma) by reflexivity; [|done].
  by rewrite <- app_assoc.
Qed.

Lemma strip_answer_line k label :
  1 <= k -> Str.strip (answer_line k label) = answer_line k (Str.rstrip label).
Proof.
  intros Hk. unfold Str.strip.
  pose proof (lstrip_answer_line k label [] Hk) as Hl. rewrite !app_nil_r in Hl.
  rewrite Hl. apply (rstrip_answer_line []).
Qed.

(** The line that answers headline [k] carries the index [k] and the
    trimmed label, when [int] reads back what [str] wrote. *)
Lemma answer_line_entry k label :
  1 <= k ->
  py_int (Str.of_int k) = Some k ->
  line_entry (answer_line k label) = Some (k, Str.strip label).
Proof.
  intros Hk Hint. destruct (of_int_digits k Hk) as [Hd _].
  unfold line_entry. rewrite (strip_answer_line _ _ Hk). unfold answer_line.
  assert (Hno : Str.contains comma (Str.of_int k) = false).
  { apply digits_no_char; [unfold comma; lia|done]. }
  assert (Hyes : Str.contains comma (Str.of_int k ++ comma :: Str.rstrip label) = true).
  { rewrite contains_app. simpl. rewrite ?Z.eqb_refl. by rewrite ?orb_true_r. }
  rewrite Hyes.
  rewrite (before_app_sep _ _ _ Hno), (after_app_sep _ _ _ Hno).
  rewrite (strip_no_blank _ (digits_no_blank _ Hd)), Hint. simpl.
  by rewrite strip_rstrip.
Qed.

Lemma answer_line_no_newline k label :
  1 <= k -> Str.contains newline label = false ->
  Str.contains newline (answer_line k label) = false.
Proof.
  intros Hk Hl. destruct (of_int_digits k Hk) as [Hd _].
  unfold answer_line. rewrite contains_app. simpl. rewrite Hl.
  rewrite (digits_no_char newline _ ltac:(unfold newline; lia) Hd). reflexivity.
Qed.

Lemma answer_lines_lookup labels i :
  answer_lines labels !! i = answer_line (Z.of_nat i + 1) <$> labels !! i.
Proof. unfold answer_lines. by rewrite list_lookup_imap. Qed.

Lemma answer_lines_length labels : length (answer_lines labels) = length labels.
Proof. unfold answer_lines. apply length_imap. Qed.

Lemma answer_lines_snoc labels last :
  answer_lines (labels ++ [last])
  = answer_lines labels ++ [answer_line (Z.of_nat (length labels) + 1) last].
Proof.
  unfold answer_lines. rewrite imap_app. simpl.
  by rewrite Nat.add_0_r.
Qed.

Lemma join_snoc sep parts last :
  Str.join sep (parts ++ [last]) = concat (map (fun p => p ++ sep) parts) ++ last.
Proof.
  induction parts as [|p parts IH]; [reflexivity|].
  simpl. rewrite <- app_assoc, <- IH.
  destruct (parts ++ [last]) eqn:E; [by destruct parts|by rewrite app_assoc].
Qed.

Lemma split_lines parts last :
  Forall (fun p => Str.contains newline p = false) parts ->
  Str.contains newline last = false ->
  Str.split newline (concat (map (fun p => p ++ [newline]) parts) ++ last)
  = parts ++ [last].
Proof.
  intros Hparts Hlast. induction Hparts as [|p parts Hp _ IH]; simpl.
  - by apply split_no_sep.
  - rewrite <- !app_assoc. simpl. rewrite (split_app_sep _ _ _ Hp). by rewrite IH.
Qed.

Lemma answer_lines_no_newline labels :
  Forall (fun l => Str.contains newline l = false) labels ->
  Forall (fun p => Str.contains newline p = false) (answer_lines labels).
Proof.
  intros Hl. apply Forall_lookup. intros i line Hline.
  rewrite answer_lines_lookup in Hline.
  destruct (labels !! i) as [label|] eqn:E; [|discriminate].
  injection Hline as <-. apply answer_line_no_newline; [lia|].
  by apply (Forall_lookup_1 _ _ _ _ Hl E).
Qed.

(** The lines the parser sees of a full reply: trimming the reply trims
    the right end of its last label and nothing else. *)
Lemma reply_lines_full labels last :
  Forall (fun l => Str.contains newline l = false) (labels ++ [last]) ->
  reply_lines (full_reply (labels ++ [last]))
  = answer_lines labels
    ++ [answer_line (Z.of_nat (length labels) + 1) (Str.rstrip last)].
Proof.
  intros [Hl Hlast]%Forall_app. apply Forall_inv in Hlast.
  unfold reply_lines, full_reply. rewrite answer_lines_snoc, join_snoc.
  set (head := concat _).
  assert (Hstrip : Str.strip (head ++ answer_line (Z.of_nat (length labels) + 1) last)
                   = head ++ answer_line (Z.of_nat (length labels) + 1) (Str.rstrip last)).
  { unfold Str.strip.
    assert (Hlead : Str.lstrip (head ++ answer_line (Z.of_nat (length labels) + 1) last)
                    = head ++ answer_line (Z.of_nat (length labels) + 1) last).
    { unfold head, answer_lines. destruct labels as [|l0 labels]; simpl.
      - pose proof (lstrip_answer_line 1 last [] ltac:(lia)) as Hx.
        by rewrite !app_nil_r in Hx.
      - reflexivity. }
    rewrite Hlead. apply rstrip_answer_line. }
  rewrite Hstrip. unfold head. apply split_lines.
  - by apply answer_lines_no_newline.
  - apply answer_line_no_newline; [lia|]. by apply contains_rstrip.
Qed.

(** Lines that carry the indices 1, 2, ..., n in turn fill the labels
    with what they carry. *)
Lemma merged_in_turn n lines values :
  length lines = n -> length values = n ->
  (forall i line, lines !! i = Some line ->
     exists v, values !! i = Some v /\ line_entry line = Some (Z.of_nat i + 1, v)) ->
  foldl (apply_line n) (replicate n unknown) lines = values.
Proof.
  intros Hlines Hvalues Hentries. apply list_eq. intros p.
  destruct (decide (p < n)%nat) as [Hp|Hp].
  - destruct (lookup_lt_is_Some_2 lines p ltac:(lia)) as [line Hline].
    destruct (Hentries p line Hline) as (v & Hv & Hentry).
    rewrite Hv. rewrite <- (take_drop_middle lines p line Hline).
    apply foldl_apply_last; [apply length_replicate|done|done|].
    intros later v' [j Hj]%list_elem_of_lookup Hsame.
    rewrite lookup_drop in Hj.
    destruct (Hentries _ _ Hj) as (v'' & _ & Hlater).
    rewrite Hlater in Hsame. injection Hsame as Hidx _. lia.
  - rewrite !lookup_ge_None_2; [done|lia|].
    rewrite foldl_apply_length, length_replicate. lia.
Qed.

End ReplyFacts.

(** X1: when the model answers every headline in turn, one line
    [k,label] per headline, the parser returns exactly the trimmed
    labels, in the order of the headlines; the labels may hold commas
    and blanks but no line break, and [int] must read back the numbers
    that [str] wrote. *)
Theorem full_reply_decoded {RT : Runtime}
    (headlines : list pyval) (labels : list pystr) :
  length labels = length headlines ->
  Forall (fun l => Str.contains newline l = false) labels ->
  (forall k, 1 <= k <= Z.of_nat (length headlines) -> py_int (Str.of_int k) = Some k) ->
  parse_response headlines (full_reply labels) = Ok (map Str.strip labels).
Proof.
  intros Hlen Hclean Hint. rewrite parse_response_merged. f_equal.
  unfold merged_labels.
  destruct labels as [|l0 ls _] using rev_ind.
  { destruct headlines; [reflexivity|discriminate]. }
  rename l0 into last. rename ls into init.
  rewrite (reply_lines_full _ _ Hclean).
  rewrite length_app in Hlen. simpl in Hlen.
  apply merged_in_turn.
  - rewrite length_app, answer_lines_length. simpl. lia.
  - rewrite length_map, length_app. simpl. lia.
  - intros i line Hline. rewrite list_lookup_fmap.
    destruct (decide (i < length init)%nat) as [Hi|Hi].
    + rewrite lookup_app_l in Hline by (by rewrite answer_lines_length).
      rewrite answer_lines_lookup in Hline.
      rewrite lookup_app_l by done.
      destruct (init !! i) as [label|]; [|discriminate].
      injection Hline as <-. exists (Str.strip label). split; [reflexivity|].
      apply answer_line_entry; [lia|]. apply Hint. lia.
    + assert (Hlast : i = length init).
      { apply lookup_lt_Some in Hline.
        rewrite length_app, answer_lines_length in Hline. simpl in Hline. lia. }
      subst i.
      rewrite list_lookup_middle in Hline by (by rewrite answer_lines_length).
      injection Hline as <-.
      rewrite list_lookup_middle by done.
      exists (Str.strip last). split; [reflexivity|].
      rewrite <- (strip_rstrip last).
      apply answer_line_entry; [lia|]. apply Hint. lia.
Qed.

Lemma full_reply_decoded_witness :
  parse_response (RT := Canned.runtime 3 []) ABC
    (full_reply [Str.lit " 東京都"; Str.lit "Osaka, Kansai"; Str.lit "不明  "])
  = Ok [Str.lit "東京都"; Str.lit "Osaka, Kansai"; Str.lit "不明"].
Proof.
  apply (full_reply_decoded (RT := Canned.runtime 3 []) ABC
           [Str.lit " 東京都"; Str.lit "Osaka, Kansai"; Str.lit "不明  "]).
  - reflexivity.
  - repeat constructor.
  - intros k Hk. simpl in Hk.
    assert (Hcases : k = 1 \/ k = 2 \/ k = 3) by lia.
    destruct Hcases as [->|[->| ->]]; reflexivity.
Defined.

(** ** A page that runs to its end *)

Section PageFacts.

Context {RT : Runtime}.

(** What has happened when a turn of the page loop ends normally. *)
Lemma page_step_ok base_url page_count api_key acc page w acc' w' :
  page_step base_url page_count api_key acc page w = (Ok acc', w') ->
  exists headlines labels used,
    length labels = length headlines /\
    daily_tokens w !! TODAY = Some used /\
    used + PyList.len headlines * 120 <= DAILY_TOKEN_LIMIT /\
    acc' = (acc.1 ++ headlines, acc.2 ++ labels) /\
    daily_tokens w' = <[TODAY := used + PyList.len headlines * 120]> (daily_tokens w) /\
    trace w' = trace w ++ page_events base_url page_count page (build_prompt headlines).
Proof.
  unfold page_step, mbind, M_bind, Script.emit, fetch, Script.lift. simpl.
  destruct (requests_get _ _) as [text|e]; [|discriminate].
  destruct (extract_headlines_with_beautifulsoup text) as [headlines|e]; [|discriminate].
  rewrite classifier_run. simpl.
  destruct (daily_tokens w !! TODAY) as [used|] eqn:Hu; [|discriminate].
  destruct (used + PyList.len headlines * 120 >? DAILY_TOKEN_LIMIT) eqn:Hb; [discriminate|].
  destruct (chat_completions_create _ _) as [[|[reply|] rest]|e]; try discriminate.
  simpl. intros [= <- <-].
  exists headlines, (merged_labels (length headlines) reply), used.
  split; [apply merged_labels_length|]. split; [reflexivity|].
  split; [lia|]. split; [reflexivity|]. split; [reflexivity|].
  simpl. unfold page_events. by rewrite <- !app_assoc.
Qed.

(** What has happened when the loop over [pages] ends normally. *)
Lemma for_each_ok base_url page_count api_key pages acc w result w' :
  Script.for_each (page_step base_url page_count api_key) acc pages w = (Ok result, w') ->
  exists new_headlines new_labels sent,
    result = (acc.1 ++ new_headlines, acc.2 ++ new_labels) /\
    length new_labels = length new_headlines /\
    length sent = length pages /\
    trace w' = trace w ++ concat (zip_with (page_events base_url page_count) pages sent) /\
    (pages <> [] -> is_Some (daily_tokens w !! TODAY)) /\
    usage TODAY w' = usage TODAY w + PyList.len new_headlines * 120.
Proof.
  revert acc w. induction pages as [|page pages IH]; intros acc w; simpl.
  - intros [= <- <-]. exists [], [], []. rewrite !app_nil_r.
    destruct acc. simpl. split; [done|]. split; [done|]. split; [done|].
    split; [done|]. split; [done|]. unfold PyList.len. simpl. lia.
  - unfold mbind, M_bind.
    destruct (page_step base_url page_count api_key acc page w) as [[acc1|e] w1] eqn:Hstep;
      [|discriminate].
    apply page_step_ok in Hstep
      as (headlines & labels & used & Hlen & Hu & Hfit & -> & Htok & Htrace).
    intros (hs & ls & sent & -> & Hlen' & Hsent & Htrace' & _ & Husage)%IH.
    exists (headlines ++ hs), (labels ++ ls), (build_prompt headlines :: sent).
    simpl. rewrite !app_assoc. split; [reflexivity|].
    split; [rewrite !length_app; lia|]. split; [lia|].
    split; [by rewrite Htrace', Htrace, <- !app_assoc|].
    split; [by rewrite Hu|].
    rewrite Husage. unfold usage at 1 2. rewrite Htok, lookup_insert_eq, Hu. simpl.
    unfold PyList.len. rewrite length_app. lia.
Qed.

Lemma page_loop_ok base_url page_count api_key w all_headlines all_prefectures w' :
  page_loop base_url page_count api_key w
  = (Ok (all_headlines, all_prefectures), w') ->
  exists sent,
    length all_prefectures = length all_headlines /\
    length sent = Z.to_nat page_count /\
    trace w' = trace w ++ st_progress 0 1
                 :: concat (zip_with (page_events base_url page_count)
                              (map Z.of_nat (seq 1 (Z.to_nat page_count))) sent) /\
    usage TODAY w' = usage TODAY w + PyList.len all_headlines * 120.
Proof.
  unfold page_loop, mbind, M_bind, Script.emit. simpl. rewrite range_pages.
  intros (hs & ls & sent & [= -> ->] & Hlen & Hsent & Htrace & _ & Husage)%for_each_ok.
  exists sent. simpl in *. rewrite length_map, length_seq in Hsent.
  split; [done|]. split; [done|]. split; [|done].
  rewrite Htrace. by rewrite <- app_assoc.
Qed.

End PageFacts.

(** ** Relations every step of a run keeps *)

Create HintDb keeps discriminated.

Section Keeps.

Context {RT : Runtime}.

Variable R : world -> world -> Prop.
Hypothesis R_trans : forall w1 w2 w3, R w1 w2 -> R w2 w3 -> R w1 w3.
Hypothesis R_same : forall w w', daily_tokens w' = daily_tokens w -> R w w'.
Hypothesis R_classifier :
  forall headlines api_key, keeps R (extract_prefecture_with_llm headlines api_key).

Lemma keeps_ret {A} (a : A) : keeps R (mret a).
Proof. intros w. by apply R_same. Qed.

Lemma keeps_raise {A} e : keeps R (@Script.raise A e).
Proof. intros w. by apply R_same. Qed.

Lemma keeps_stop {A} : keeps R (@Script.st_stop A).
Proof. apply keeps_raise. Qed.

Lemma keeps_lift {A} (r : res A) : keeps R (Script.lift r).
Proof. intros w. by apply R_same. Qed.

Lemma keeps_emit e : keeps R (Script.emit e).
Proof. intros w. by apply R_same. Qed.

Lemma keeps_fetch url : keeps R (fetch url).
Proof. intros w. by apply R_same. Qed.

Lemma keeps_bind {A B} (m : M A) (f : A -> M B) :
  keeps R m -> (forall a, keeps R (f a)) -> keeps R (m ≫= f).
Proof.
  intros Hm Hf w. unfold mbind, M_bind.
  specialize (Hm w). destruct (m w) as [[a|e] w1]; simpl in *; [|done].
  exact (R_trans _ _ _ Hm (Hf a w1)).
Qed.

Lemma keeps_for_each {A B} (body : A -> B -> M A) xs :
  (forall acc x, keeps R (body acc x)) ->
  forall acc, keeps R (Script.for_each body acc xs).
Proof.
  intros Hbody. induction xs as [|x xs IH]; intros acc; simpl.
  - apply keeps_ret.
  - apply keeps_bind; [apply Hbody|]. intros acc'. apply IH.
Qed.

#[local] Hint Resolve keeps_ret keeps_raise keeps_stop keeps_lift keeps_emit
  keeps_fetch R_classifier : keeps.
#[local] Hint Extern 2 (keeps _ (_ ≫= _)) => apply keeps_bind; [|intros ?] : keeps.

Lemma keeps_page_step base_url page_count api_key acc page :
  keeps R (page_step base_url page_count api_key acc page).
Proof. unfold page_step. auto 20 with keeps. Qed.

Lemma keeps_page_loop base_url page_count api_key :
  keeps R (page_loop base_url page_count api_key).
Proof.
  unfold page_loop. apply keeps_bind; [auto with keeps|]. intros _.
  apply keeps_for_each. intros acc page. apply keeps_page_step.
Qed.

Lemma keeps_on_run base_url page_count api_key :
  keeps R (on_run base_url page_count api_key).
Proof.
  unfold on_run. apply keeps_bind; [|intros ?; apply keeps_page_loop].
  case_bool_decide; auto with keeps.
Qed.

Lemma keeps_main_processing api_key button base_url page_count :
  keeps R (main_processing api_key button base_url page_count).
Proof.
  unfold main_processing. apply keeps_bind.
  - destruct api_key as [key|]; [case_bool_decide|]; auto with keeps.
  - intros key. destruct button; [|auto with keeps].
    apply keeps_bind; [apply keeps_on_run|auto with keeps].
Qed.

End Keeps.

Section BudgetFacts.

Context {RT : Runtime}.

Lemma within_budget_trans w1 w2 w3 :
  within_budget w1 w2 -> within_budget w2 w3 -> within_budget w1 w3.
Proof. unfold within_budget. auto. Qed.

Lemma within_budget_same w w' : daily_tokens w' = daily_tokens w -> within_budget w w'.
Proof. unfold within_budget, usage. by intros ->. Qed.

Lemma within_budget_classifier headlines api_key :
  keeps within_budget (extract_prefecture_with_llm headlines api_key).
Proof.
  intros w. rewrite classifier_run.
  destruct (daily_tokens w !! TODAY) as [used|] eqn:Hu; simpl;
    [|by apply within_budget_same].
  destruct (used + PyList.len headlines * 120 >? DAILY_TOKEN_LIMIT) eqn:Hb; simpl;
    [by apply within_budget_same|].
  assert (Hfit : forall evs,
    within_budget w (World (<[TODAY := used + PyList.len headlines * 120]> (daily_tokens w)) evs)).
  { intros evs _. unfold usage. simpl. rewrite lookup_insert_eq. simpl. lia. }
  destruct (chat_completions_create _ _) as [[|[reply|] rest]|e]; simpl;
    first [apply Hfit | by apply within_budget_same].
Qed.

Lemma other_days_trans w1 w2 w3 :
  other_days_kept w1 w2 -> other_days_kept w2 w3 -> other_days_kept w1 w3.
Proof.
  unfold other_days_kept. intros H12 H23 key Hkey.
  by rewrite (H23 key Hkey), (H12 key Hkey).
Qed.

Lemma other_days_same w w' : daily_tokens w' = daily_tokens w -> other_days_kept w w'.
Proof. unfold other_days_kept. by intros ->. Qed.

Lemma other_days_classifier headlines api_key :
  keeps other_days_kept (extract_prefecture_with_llm headlines api_key).
Proof.
  intros w. rewrite classifier_run.
  destruct (daily_tokens w !! TODAY) as [used|] eqn:Hu; simpl;
    [|by apply other_days_same].
  destruct (used + PyList.len headlines * 120 >? DAILY_TOKEN_LIMIT) eqn:Hb; simpl;
    [by apply other_days_same|].
  assert (Hins : forall evs,
    other_days_kept w (World (<[TODAY := used + PyList.len headlines * 120]> (daily_tokens w)) evs)).
  { intros evs key Hkey. simpl. by rewrite lookup_insert_ne. }
  destruct (chat_completions_create _ _) as [[|[reply|] rest]|e]; simpl;
    first [apply Hins | by apply other_days_same].
Qed.

End BudgetFacts.

Section RunFacts.

Context {RT : Runtime}.

Lemma entries_trans w1 w2 w3 :
  entries_kept w1 w2 -> entries_kept w2 w3 -> entries_kept w1 w3.
Proof. unfold entries_kept. auto. Qed.

Lemma entries_same w w' : daily_tokens w' = daily_tokens w -> entries_kept w w'.
Proof. unfold entries_kept. by intros ->. Qed.

Lemma entries_classifier headlines api_key :
  keeps entries_kept (extract_prefecture_with_llm headlines api_key).
Proof.
  intros w. rewrite classifier_run.
  destruct (daily_tokens w !! TODAY) as [used|] eqn:Hu; simpl;
    [|by apply entries_same].
  destruct (used + PyList.len headlines * 120 >? DAILY_TOKEN_LIMIT) eqn:Hb; simpl;
    [by apply entries_same|].
  assert (Hins : forall evs,
    entries_kept w (World (<[TODAY := used + PyList.len headlines * 120]> (daily_tokens w)) evs)).
  { intros evs key Hkey. simpl. destruct (decide (TODAY = key)) as [->|Hne].
    - rewrite lookup_insert_eq. eauto.
    - by rewrite lookup_insert_ne. }
  destruct (chat_completions_create _ _) as [[|[reply|] rest]|e]; simpl;
    first [apply Hins | by apply entries_same].
Qed.

(** The run handler ends normally only past its guard, as the page
    loop does. *)
Lemma on_run_ok base_url page_count api_key w result w' :
  on_run base_url page_count api_key w = (Ok result, w') ->
  base_url <> [] /\ page_loop base_url page_count api_key w = (Ok result, w').
Proof.
  unfold on_run, mbind at 1, M_bind at 1.
  case_bool_decide as Hbase; [discriminate|]. simpl. by intros ->.
Qed.

End RunFacts.

(** X2: the counter of today never passes the daily limit: when it is
    at most 15000 before start-up, a call of the classifier, the page
    loop or the whole run, it is at most 15000 after, however the step
    ends; the remaining budget shown after a run is then never
    negative. *)
Theorem budget_never_exceeded {RT : Runtime}
    (api_key : option pystr) (button : bool) (base_url key : pystr)
    (page_count : Z) (headlines : list pyval) (w : world) :
  usage TODAY w <= 15000 ->
  usage TODAY (init_daily_tokens w) <= 15000 /\
  usage TODAY (extract_prefecture_with_llm headlines key w).2 <= 15000 /\
  usage TODAY (page_loop base_url page_count key w).2 <= 15000 /\
  usage TODAY (main_processing api_key button base_url page_count w).2 <= 15000 /\
  forall left, (remaining_tokens (main_processing api_key button base_url page_count w).2).1
               = Ok left -> 0 <= left.
Proof.
  intros Hw.
  assert (Hmain : usage TODAY (main_processing api_key button base_url page_count w).2
                  <= 15000).
  { by apply (keeps_main_processing within_budget within_budget_trans
                within_budget_same within_budget_classifier). }
  split.
  { unfold init_daily_tokens. destruct (daily_tokens w !! TODAY) eqn:E; [done|].
    unfold usage. simpl. by rewrite lookup_insert_eq. }
  split.
  { by apply within_budget_classifier. }
  split.
  { by apply (keeps_page_loop within_budget within_budget_trans
                within_budget_same within_budget_classifier). }
  split; [exact Hmain|].
  intros left. unfold remaining_tokens, mbind, M_bind, Script.tokens_get.
  unfold usage in Hmain.
  destruct (daily_tokens _ !! TODAY) as [used|]; [|discriminate].
  simpl in *. intros [= <-]. unfold DAILY_TOKEN_LIMIT. lia.
Qed.

Lemma budget_never_exceeded_witness :
  usage (Str.lit "2024-01-01")
    (main_processing (RT := Canned.runtime 60 []) (Some (Str.lit "sk-test")) true
       (Str.lit "https://x.test/list") 3 Canned.fresh).2 <= 15000.
Proof.
  apply (budget_never_exceeded (RT := Canned.runtime 60 [])
           (Some (Str.lit "sk-test")) true (Str.lit "https://x.test/list")
           [] 3 [] Canned.fresh).
  vm_compute. discriminate.
Defined.

(** X3: a run that ends normally has added to today's counter exactly
    120 tokens for every headline it returns. *)
Theorem completed_run_charge {RT : Runtime}
    (base_url api_key : pystr) (page_count : Z) (w w' : world)
    (all_headlines : list pyval) (all_prefectures : list pystr) :
  on_run base_url page_count api_key w = (Ok (all_headlines, all_prefectures), w') ->
  usage TODAY w' = usage TODAY w + 120 * Z.of_nat (length all_headlines).
Proof.
  intros [_ Hloop]%on_run_ok.
  apply page_loop_ok in Hloop as (sent & _ & _ & _ & Husage).
  rewrite Husage. unfold PyList.len. lia.
Qed.

Lemma completed_run_charge_witness :
  usage (Str.lit "2024-01-01")
    (on_run (RT := Canned.runtime 2 (Str.lit "1,東京都")) (Str.lit "https://x.test/list")
       3 [] Canned.fresh).2
  = 0 + 120 * 6.
Proof.
  apply (completed_run_charge (RT := Canned.runtime 2 (Str.lit "1,東京都"))
           (Str.lit "https://x.test/list") [] 3 Canned.fresh _
           (replicate 6 (PyStr (Str.lit "A")))
           (concat (replicate 3 [Str.lit "東京都"; unknown]))).
  vm_compute. reflexivity.
Defined.

(** X4: a run that ends normally returns as many labels as headlines,
    so the two columns of the result table have the same length. *)
Theorem result_columns_align {RT : Runtime}
    (base_url api_key : pystr) (page_count : Z) (w w' : world)
    (all_headlines : list pyval) (all_prefectures : list pystr) :
  on_run base_url page_count api_key w = (Ok (all_headlines, all_prefectures), w') ->
  length all_prefectures = length all_headlines.
Proof.
  intros [_ Hloop]%on_run_ok.
  by apply page_loop_ok in Hloop as (sent & Hlen & _).
Qed.

Lemma result_columns_align_witness :
  length (concat (replicate 3 [Str.lit "東京都"; unknown]))
  = length (replicate 6 (PyStr (Str.lit "A"))).
Proof.
  apply (result_columns_align (RT := Canned.runtime 2 (Str.lit "1,東京都"))
           (Str.lit "https://x.test/list") [] 3 Canned.fresh
           (on_run (RT := Canned.runtime 2 (Str.lit "1,東京都"))
              (Str.lit "https://x.test/list") 3 [] Canned.fresh).2).
  vm_compute. reflexivity.
Defined.

(** X5: no step of a run changes or removes the counter of a date other
    than today, and no step removes today's, however the step ends. *)
Theorem other_days_untouched {RT : Runtime}
    (api_key : option pystr) (button : bool) (base_url : pystr)
    (page_count : Z) (w : world) (key : pystr) :
  let w' := (main_processing api_key button base_url page_count (init_daily_tokens w)).2 in
  (key <> TODAY -> daily_tokens w' !! key = daily_tokens w !! key) /\
  (is_Some (daily_tokens w !! key) -> is_Some (daily_tokens w' !! key)) /\
  is_Some (daily_tokens w' !! TODAY).
Proof.
  intros w'. subst w'.
  assert (Hinit_other : other_days_kept w (init_daily_tokens w)).
  { intros k Hk. unfold init_daily_tokens.
    destruct (daily_tokens w !! TODAY); [done|]. simpl. by rewrite lookup_insert_ne. }
  assert (Hinit_today : is_Some (daily_tokens (init_daily_tokens w) !! TODAY)).
  { unfold init_daily_tokens. destruct (daily_tokens w !! TODAY) eqn:E; [eauto|].
    simpl. rewrite lookup_insert_eq. eauto. }
  assert (Hinit_entries : entries_kept w (init_daily_tokens w)).
  { intros k Hk. unfold init_daily_tokens.
    destruct (daily_tokens w !! TODAY) eqn:E; [done|]. simpl.
    destruct (decide (TODAY = k)) as [->|Hne]; [by rewrite lookup_insert_eq|].
    by rewrite lookup_insert_ne. }
  pose proof (keeps_main_processing entries_kept entries_trans entries_same
                entries_classifier api_key button base_url page_count
                (init_daily_tokens w)) as Hentries.
  split; [|split].
  - intros Hkey.
    rewrite (keeps_main_processing other_days_kept other_days_trans other_days_same
               other_days_classifier api_key button base_url page_count
               (init_daily_tokens w) key Hkey).
    by apply Hinit_other.
  - intros Hk. apply Hentries. by apply Hinit_entries.
  - by apply Hentries.
Qed.

Lemma other_days_untouched_witness :
  daily_tokens
    (main_processing (RT := Canned.runtime 2 []) (Some (Str.lit "sk-test")) true
       (Str.lit "https://x.test/list") 2
       (init_daily_tokens (RT := Canned.runtime 2 [])
          (World {[ Str.lit "2023-12-31" := 9000 ]} []))).2
    !! Str.lit "2023-12-31"
  = Some 9000.
Proof.
  destruct (other_days_untouched (RT := Canned.runtime 2 []) (Some (Str.lit "sk-test")) true
              (Str.lit "https://x.test/list") 2
              (World {[ Str.lit "2023-12-31" := 9000 ]} []) (Str.lit "2023-12-31"))
    as (Hother & _).
  rewrite Hother; [reflexivity|]. vm_compute. discriminate.
Defined.

Section TraceFacts.

Context {RT : Runtime}.

Lemma prompts_app evs evs' : prompts (evs ++ evs') = prompts evs ++ prompts evs'.
Proof. apply omap_app. Qed.

Lemma prompts_page_events base_url page_count pages sent :
  length sent = length pages ->
  prompts (concat (zip_with (page_events base_url page_count) pages sent)) = sent.
Proof.
  revert sent. induction pages as [|page pages IH]; intros [|p sent] Hlen;
    try discriminate; [reflexivity|].
  simpl. f_equal. apply IH. simpl in Hlen. lia.
Qed.

Lemma fetched_page_events base_url page_count pages sent :
  length sent = length pages ->
  fetched (concat (zip_with (page_events base_url page_count) pages sent))
  = map (page_url base_url) pages.
Proof.
  revert sent. induction pages as [|page pages IH]; intros [|p sent] Hlen;
    try discriminate; [reflexivity|].
  simpl. f_equal. apply IH. simpl in Hlen. lia.
Qed.

Lemma sleeps_page_events base_url page_count pages sent :
  length sent = length pages ->
  sleeps (concat (zip_with (page_events base_url page_count) pages sent))
  = replicate (length pages) 3.
Proof.
  revert sent. induction pages as [|page pages IH]; intros [|p sent] Hlen;
    try discriminate; [reflexivity|].
  simpl. f_equal. apply IH. simpl in Hlen. lia.
Qed.

(** The URLs of distinct pages are distinct. *)
Lemma page_url_inj base_url K1 K2 :
  1 <= K1 -> 1 <= K2 -> page_url base_url K1 = page_url base_url K2 -> K1 = K2.
Proof.
  intros H1 H2. unfold page_url.
  assert (Hgrow : forall K, 1 <= K -> base_url <> base_url ++ Str.of_int K).
  { intros K HK Heq. apply (f_equal length) in Heq. rewrite length_app in Heq.
    pose proof (of_int_nonempty K HK). destruct (Str.of_int K); [done|]. simpl in Heq. lia. }
  destruct (K1 =? 1) eqn:E1, (K2 =? 1) eqn:E2; try lia.
  - intros Heq. by destruct (Hgrow K2 H2).
  - intros Heq. by destruct (Hgrow K1 H1).
  - intros Heq%app_inv_head.
    destruct (of_int_decimal K1 ltac:(lia)) as [<- _].
    destruct (of_int_decimal K2 ltac:(lia)) as [<- _].
    by rewrite Heq.
Qed.

Lemma page_urls_NoDup base_url n : NoDup (page_urls base_url n).
Proof.
  unfold page_urls. apply (NoDup_fmap_2_strong _ (seq 1 n)); [|apply NoDup_seq].
  intros k1 k2 Hk1%elem_of_seq Hk2%elem_of_seq Heq.
  apply page_url_inj in Heq; lia.
Qed.

Lemma page_loop_fetched base_url page_count api_key w :
  exists k : nat,
    fetched (trace (page_loop base_url page_count api_key w).2)
    = fetched (trace w) ++ page_urls base_url k.
Proof.
  unfold page_loop, mbind, M_bind. simpl. rewrite range_pages.
  set (w0 := World _ _).
  assert (Hw0 : fetched (trace w0) = fetched (trace w)).
  { unfold w0. simpl. rewrite fetched_app. simpl. apply app_nil_r. }
  destruct (for_each_fetched base_url page_count api_key
              (map Z.of_nat (seq 1 (Z.to_nat page_count))) ([], []) w0)
    as (k & Hk & Hf & _).
  rewrite length_map, length_seq in Hk.
  exists k. rewrite Hf, Hw0. f_equal. unfold page_urls.
  rewrite <- firstn_map, map_map. rewrite firstn_map.
  f_equal. rewrite take_seq. f_equal. lia.
Qed.

End TraceFacts.

(** X6: a run that ends normally has, after resetting the progress bar,
    done for each page 1..N in turn exactly this: shown the page banner,
    requested the page's URL, sent one prompt to the model, set the
    progress to page/N and slept 3 seconds. So it has requested N URLs,
    sent N prompts and slept N times 3 seconds. *)
Theorem completed_run_trace {RT : Runtime}
    (base_url api_key : pystr) (page_count : Z) (w w' : world)
    (result : list pyval * list pystr) :
  on_run base_url page_count api_key w = (Ok result, w') ->
  exists sent new_events,
    trace w' = trace w ++ st_progress 0 1 :: new_events /\
    new_events = concat (zip_with (page_events base_url page_count)
                           (map Z.of_nat (seq 1 (Z.to_nat page_count))) sent) /\
    length sent = Z.to_nat page_count /\
    prompts new_events = sent /\
    length (fetched new_events) = Z.to_nat page_count /\
    sleeps new_events = replicate (Z.to_nat page_count) 3.
Proof.
  intros [_ Hloop]%on_run_ok. destruct result as [hs ps].
  apply page_loop_ok in Hloop as (sent & _ & Hsent & Htrace & _).
  exists sent, (concat (zip_with (page_events base_url page_count)
                          (map Z.of_nat (seq 1 (Z.to_nat page_count))) sent)).
  assert (Hlen : length sent = length (map Z.of_nat (seq 1 (Z.to_nat page_count)))).
  { by rewrite length_map, length_seq. }
  split; [exact Htrace|]. split; [reflexivity|]. split; [exact Hsent|].
  split; [by apply prompts_page_events|].
  split.
  - rewrite (fetched_page_events _ _ _ _ Hlen). by rewrite !length_map, length_seq.
  - rewrite (sleeps_page_events _ _ _ _ Hlen). by rewrite length_map, length_seq.
Qed.

Lemma completed_run_trace_witness :
  exists sent new_events,
    trace (on_run (RT := Canned.runtime 1 (Str.lit "1,東京都"))
             (Str.lit "https://x.test/list") 2 [] Canned.fresh).2
    = [] ++ st_progress 0 1 :: new_events /\
    new_events
    = concat (zip_with (page_events (Str.lit "https://x.test/list") 2) [1; 2] sent) /\
    length sent = 2%nat.
Proof.
  destruct (completed_run_trace (RT := Canned.runtime 1 (Str.lit "1,東京都"))
              (Str.lit "https://x.test/list") [] 2 Canned.fresh
              (on_run (RT := Canned.runtime 1 (Str.lit "1,東京都"))
                 (Str.lit "https://x.test/list") 2 [] Canned.fresh).2
              ([PyStr (Str.lit "A"); PyStr (Str.lit "A")],
               [Str.lit "東京都"; Str.lit "東京都"]))
    as (sent & evs & Htrace & Hevs & Hlen & _).
  - vm_compute. reflexivity.
  - exists sent, evs. split; [exact Htrace|]. split; [exact Hevs|exact Hlen].
Defined.

(** X7: a run requests a page, sends a prompt or changes a counter only
    when the API key is set and not empty, the button was pressed, the
    base URL is not empty and the page count is at least 1. *)
Theorem run_needs_inputs {RT : Runtime}
    (api_key : option pystr) (button : bool) (base_url : pystr)
    (page_count : Z) (w : world) :
  let w' := (main_processing api_key button base_url page_count w).2 in
  (fetched (trace w') <> fetched (trace w) \/
   prompts (trace w') <> prompts (trace w) \/
   daily_tokens w' <> daily_tokens w) ->
  (exists key, api_key = Some key /\ key <> []) /\
  button = true /\ base_url <> [] /\ 1 <= page_count.
Proof.
  intros w' Hdone. subst w'.
  assert (Hquiet : forall e, ~ (fetched (trace w ++ [e]) <> fetched (trace w) \/
                               prompts (trace w ++ [e]) <> prompts (trace w) \/
                               daily_tokens w <> daily_tokens w) \/
                             (exists u, e = http_get u) \/ (exists p, e = chat_completion p)).
  { intros e. destruct e; eauto; left; rewrite fetched_app, prompts_app; simpl;
      rewrite !app_nil_r; intros [?|[?|?]]; done. }
  unfold main_processing, mbind, M_bind in Hdone.
  destruct api_key as [key|]; simpl in Hdone.
  2:{ destruct (Hquiet (st_error missing_key_message)) as [Hq|[[? ?]|[? ?]]]; done. }
  case_bool_decide as Hkey; simpl in Hdone.
  { destruct (Hquiet (st_error missing_key_message)) as [Hq|[[? ?]|[? ?]]]; done. }
  destruct button; simpl in Hdone; [|by destruct Hdone as [?|[?|?]]].
  unfold on_run, mbind, M_bind in Hdone.
  case_bool_decide as Hbase; simpl in Hdone.
  { destruct (Hquiet (st_warning (Str.lit "URLを入力してください")))
      as [Hq|[[? ?]|[? ?]]]; done. }
  split; [by exists key|]. split; [reflexivity|]. split; [exact Hbase|].
  destruct (Z_le_gt_dec 1 page_count) as [|Hnone]; [done|]. exfalso.
  unfold page_loop, mbind, M_bind, PyList.range in Hdone.
  replace (Z.to_nat (page_count + 1 - 1)) with 0%nat in Hdone by lia.
  simpl in Hdone.
  destruct (Hquiet (st_progress 0 1)) as [Hq|[[? ?]|[? ?]]]; done.
Qed.

Lemma run_needs_inputs_witness :
  (exists key, Some (Str.lit "sk-test") = Some key /\ key <> []) /\
  true = true /\ Str.lit "https://x.test/list" <> [] /\ 1 <= 1.
Proof.
  apply (run_needs_inputs (RT := Canned.runtime 1 []) (Some (Str.lit "sk-test")) true
           (Str.lit "https://x.test/list") 1 Canned.fresh).
  left. vm_compute. discriminate.
Defined.

(** X8: pages with different numbers have different URLs, so a run
    never requests the same URL twice. *)
Theorem pages_requested_once {RT : Runtime}
    (base_url api_key : pystr) (page_count : Z) (w : world) :
  (forall K1 K2, 1 <= K1 -> 1 <= K2 ->
     page_url base_url K1 = page_url base_url K2 -> K1 = K2) /\
  exists urls,
    fetched (trace (on_run base_url page_count api_key w).2) = fetched (trace w) ++ urls /\
    NoDup urls.
Proof.
  split; [apply page_url_inj|].
  unfold on_run, mbind at 1, M_bind at 1.
  case_bool_decide as Hbase; simpl.
  - exists []. split; [|constructor].
    rewrite fetched_app. simpl. by rewrite !app_nil_r.
  - destruct (page_loop_fetched base_url page_count api_key w) as (k & Hk).
    exists (page_urls base_url k). split; [exact Hk|apply page_urls_NoDup].
Qed.

Lemma pages_requested_once_witness :
  exists urls,
    fetched (trace (on_run (RT := Canned.runtime 1 []) (Str.lit "https://x.test/list")
                      3 [] Canned.fresh).2) = [] ++ urls /\
    NoDup urls.
Proof.
  destruct (pages_requested_once (RT := Canned.runtime 1 []) (Str.lit "https://x.test/list")
              [] 3 Canned.fresh) as (_ & urls & Hurls & Hnodup).
  exists urls. split; [exact Hurls|exact Hnodup].
Defined.

(** X9: in the prompt each headline stands on a line of its own, in
    order and numbered from 1: cutting the listing at its line breaks
    gives one line per headline, line [i] reading [i + 1], a dot, a
    blank and the headline; this needs at least one headline and no
    line break inside a headline. *)
Theorem prompt_lists_headlines {RT : Runtime} (headlines : list pyval) :
  headlines <> [] ->
  Forall (fun h => Str.contains newline (py_format h) = false) headlines ->
  build_prompt headlines
  = prompt_head ++ Str.join [newline] (numbered_lines headlines) ++ [newline] /\
  Str.split newline (headlines_text headlines) = numbered_lines headlines /\
  length (Str.split newline (headlines_text headlines)) = length headlines /\
  forall i h, headlines !! i = Some h ->
    Str.split newline (headlines_text headlines) !! i
    = Some (Str.of_int (Z.of_nat i + 1) ++ Str.lit ". " ++ py_format h).
Proof.
  intros Hne Hclean.
  assert (Hsplit : Str.split newline (headlines_text headlines) = numbered_lines headlines).
  { unfold headlines_text. apply split_join.
    - unfold numbered_lines. by destruct headlines.
    - apply Forall_lookup. intros i line Hline.
      unfold numbered_lines in Hline. rewrite list_lookup_imap in Hline.
      destruct (headlines !! i) as [h|] eqn:E; [|discriminate].
      injection Hline as <-. rewrite !contains_app.
      pose proof (Forall_lookup_1 _ _ _ _ Hclean E) as Hh. simpl in Hh.
      destruct (of_int_digits (Z.of_nat i + 1) ltac:(lia)) as [Hd _].
      rewrite (digits_no_char newline _ ltac:(unfold newline; lia) Hd).
      exact Hh. }
  split; [reflexivity|]. split; [exact Hsplit|]. rewrite Hsplit.
  split; [unfold numbered_lines; apply length_imap|].
  intros i h Hh. unfold numbered_lines. by rewrite list_lookup_imap, Hh.
Qed.

Lemma prompt_lists_headlines_witness :
  Str.split newline (headlines_text (RT := Canned.runtime 0 []) ABC)
  = [Str.lit "1. A"; Str.lit "2. B"; Str.lit "3. C"].
Proof.
  destruct (prompt_lists_headlines (RT := Canned.runtime 0 []) ABC) as (_ & Hsplit & _).
  - discriminate.
  - repeat constructor.
  - exact Hsplit.
Defined.

(** X10: a run that ends normally from a counter within the limit
    returns no more headlines than the budget left allows at 120 tokens
    each; on a fresh day that is at most 125 headlines. *)
Theorem headlines_within_budget {RT : Runtime}
    (base_url api_key : pystr) (page_count : Z) (w w' : world)
    (all_headlines : list pyval) (all_prefectures : list pystr) :
  usage TODAY w <= 15000 ->
  on_run base_url page_count api_key w = (Ok (all_headlines, all_prefectures), w') ->
  120 * Z.of_nat (length all_headlines) <= 15000 - usage TODAY w /\
  (0 <= usage TODAY w -> (length all_headlines <= 125)%nat).
Proof.
  intros Hw [_ Hloop]%on_run_ok.
  pose proof (keeps_page_loop within_budget within_budget_trans within_budget_same
                within_budget_classifier base_url page_count api_key w Hw) as Hcap.
  rewrite Hloop in Hcap. simpl in Hcap.
  apply page_loop_ok in Hloop as (sent & _ & _ & _ & Husage).
  rewrite Husage in Hcap. unfold PyList.len, DAILY_TOKEN_LIMIT in Hcap.
  split; lia.
Qed.

Lemma headlines_within_budget_witness :
  120 * Z.of_nat (length (replicate 6 (PyStr (Str.lit "A"))))
  <= 15000 - usage (Str.lit "2024-01-01") Canned.fresh.
Proof.
  apply (headlines_within_budget (RT := Canned.runtime 2 (Str.lit "1,東京都"))
           (Str.lit "https://x.test/list") [] 3 Canned.fresh
           (on_run (RT := Canned.runtime 2 (Str.lit "1,東京都"))
              (Str.lit "https://x.test/list") 3 [] Canned.fresh).2
           (replicate 6 (PyStr (Str.lit "A")))
           (concat (replicate 3 [Str.lit "東京都"; unknown]))).
  - vm_compute. discriminate.
  - vm_compute. reflexivity.
Defined.

(** X11: a page without headlines is not skipped: with an empty list the
    classifier still sends a prompt, whose listing is empty, unless
    today's counter is already over the limit; it charges nothing and
    returns no label, whatever the model answers. *)
Theorem empty_page_still_asks {RT : Runtime}
    (api_key : pystr) (w : world) (used : Z) :
  daily_tokens w !! TODAY = Some used ->
  build_prompt [] = prompt_head ++ [newline] /\
  (used <= 15000 ->
   forall reply rest,
     chat_completions_create (trace w) (build_prompt []) = Ok (Some reply :: rest) ->
     extract_prefecture_with_llm [] api_key w
     = (Ok [], World (daily_tokens w) (trace w ++ [chat_completion (build_prompt [])]))) /\
  (used > 15000 ->
   extract_prefecture_with_llm [] api_key w
   = (Raise StopException, World (daily_tokens w) (trace w ++ [st_error budget_message]))).
Proof.
  intros Hu. split; [reflexivity|].
  assert (Hrun := classifier_run [] api_key w).
  rewrite Hu in Hrun. cbv zeta in Hrun.
  change (PyList.len (@nil pyval) * 120) with 0 in Hrun.
  replace (used + 0) with used in Hrun by lia.
  unfold DAILY_TOKEN_LIMIT in Hrun.
  split.
  - intros Hfit reply rest Hreply. rewrite Hrun.
    destruct (used >? 15000) eqn:E; [lia|].
    rewrite Hreply, (insert_id _ _ _ Hu).
    f_equal. f_equal. apply nil_length_inv. apply (merged_labels_length 0).
  - intros Hover. rewrite Hrun. by destruct (used >? 15000) eqn:E; [|lia].
Qed.

Lemma empty_page_still_asks_witness :
  extract_prefecture_with_llm (RT := Canned.runtime 0 (Str.lit "1,東京都")) [] [] Canned.fresh
  = (Ok [], World (daily_tokens Canned.fresh)
                  [chat_completion (build_prompt (RT := Canned.runtime 0 (Str.lit "1,東京都")) [])]).
Proof.
  destruct (empty_page_still_asks (RT := Canned.runtime 0 (Str.lit "1,東京都")) []
              Canned.fresh 0) as (_ & Hask & _).
  - reflexivity.
  - apply (Hask ltac:(lia) (Str.lit "1,東京都") []). reflexivity.
Defined.

(** X12: the estimate is charged before the reply is read: when the
    completion holds no choice the classifier raises [IndexError], and
    when the first choice has no text it raises [AttributeError], in
    both cases with the estimate already added to today's counter and
    no label returned. *)
Theorem unreadable_reply_still_charged {RT : Runtime}
    (headlines : list pyval) (api_key : pystr) (w : world) (used : Z) :
  daily_tokens w !! TODAY = Some used ->
  used + PyList.len headlines * 120 <= DAILY_TOKEN_LIMIT ->
  let charged :=
    World (<[TODAY := used + PyList.len headlines * 120]> (daily_tokens w))
          (trace w ++ [chat_completion (build_prompt headlines)]) in
  (chat_completions_create (trace w) (build_prompt headlines) = Ok [] ->
   extract_prefecture_with_llm headlines api_key w = (Raise IndexError, charged)) /\
  (forall rest,
     chat_completions_create (trace w) (build_prompt headlines) = Ok (None :: rest) ->
     extract_prefecture_with_llm headlines api_key w = (Raise AttributeError, charged)).
Proof.
  intros Hu Hfit charged. subst charged. split.
  - intros Hc. rewrite classifier_run, Hu. simpl.
    destruct (used + PyList.len headlines * 120 >? DAILY_TOKEN_LIMIT) eqn:E; [lia|].
    by rewrite Hc.
  - intros rest Hc. rewrite classifier_run, Hu. simpl.
    destruct (used + PyList.len headlines * 120 >? DAILY_TOKEN_LIMIT) eqn:E; [lia|].
    by rewrite Hc.
Qed.

Lemma unreadable_reply_still_charged_witness :
  extract_prefecture_with_llm (RT := Canned.silent 3) ABC [] Canned.fresh
  = (Raise IndexError,
     World (<[Str.lit "2024-01-01" := 0 + 3 * 120]> (daily_tokens Canned.fresh))
           ([] ++ [chat_completion (build_prompt (RT := Canned.silent 3) ABC)])).
Proof.
  destruct (unreadable_reply_still_charged (RT := Canned.silent 3) ABC [] Canned.fresh 0)
    as (Hnone & _).
  - reflexivity.
  - vm_compute. discriminate.
  - apply Hnone. reflexivity.
Defined.
